(** * diary_project: the diary entry workflow and the account registration

    A shallow embedding of [diary/models.py], [diary/forms.py],
    [diary/views.py], [users/forms.py] and [users/views.py].

    The database tables are finite maps from primary keys to rows, the
    mail outbox is a list, and a view is a function of the request in a
    state-and-exception monad.  Django runs without a transaction around
    a request, so a raised exception keeps the writes made before it. *)

From Stdlib Require Import ZArith.
From stdpp Require Import gmap strings list fin_maps pretty.

Local Open Scope string_scope.
Local Open Scope Z_scope.

(** ** users/models.py *)

Record User := mkUser {
  email : string;
  password : string;
  first_name : string;
  last_name : string;
  avatar : option string;
  num_phone : option string;
  country : option string;
  verification_code : option string;
  is_active : bool;
  is_superuser : bool;
  user_permissions : gset string;
}.

(** ** diary/models.py *)

Record Diary := mkDiary {
  title : string;
  content : string;
  slug : option string;
  author : option nat;
  is_published : bool;
  status : string;
  preview : option string;
  created_at : nat;
  views : Z;
}.

Definition set_slug (v : option string) (d : Diary) : Diary :=
  mkDiary (title d) (content d) v (author d) (is_published d) (status d)
          (preview d) (created_at d) (views d).
Definition set_author (v : option nat) (d : Diary) : Diary :=
  mkDiary (title d) (content d) (slug d) v (is_published d) (status d)
          (preview d) (created_at d) (views d).
Definition set_is_published (v : bool) (d : Diary) : Diary :=
  mkDiary (title d) (content d) (slug d) (author d) v (status d)
          (preview d) (created_at d) (views d).
Definition set_status (v : string) (d : Diary) : Diary :=
  mkDiary (title d) (content d) (slug d) (author d) (is_published d) v
          (preview d) (created_at d) (views d).
Definition set_created_at (v : nat) (d : Diary) : Diary :=
  mkDiary (title d) (content d) (slug d) (author d) (is_published d) (status d)
          (preview d) v (views d).
Definition set_views (v : Z) (d : Diary) : Diary :=
  mkDiary (title d) (content d) (slug d) (author d) (is_published d) (status d)
          (preview d) (created_at d) v.
(** [construct_instance] for a form with the fields [title], [content] and
    [preview]: the two text fields are assigned; the image field is
    assigned only when the cleaned value [p] is not [None]
    ([FileField.save_form_data]). *)
Definition set_form_fields (t c : string) (p : option string) (d : Diary) : Diary :=
  mkDiary t c (slug d) (author d) (is_published d) (status d)
          (match p with Some v => Some v | None => preview d end)
          (created_at d) (views d).

(** A model instance as the views hold it: the primary key ([None] until
    the first save) and the field values. *)
Definition DiaryObj : Type := option nat * Diary.

(** Field defaults of a new [Diary()]. *)
Definition Diary_new (t c : string) (p : option string) : Diary :=
  mkDiary t c None None false "no_published" p 0%nat 0.

(** ** The state of the application *)

Record Mail := mkMail {
  subject : string;
  message : string;
  from_email : string;
  recipient_list : list string;
  html_message : option string;
}.

Record State := mkState {
  diary_table : gmap nat Diary;
  user_table : gmap nat User;
  outbox : list Mail;
  today : nat;
}.

Definition set_diary_table (t : gmap nat Diary) (st : State) : State :=
  mkState t (user_table st) (outbox st) (today st).
Definition set_user_table (t : gmap nat User) (st : State) : State :=
  mkState (diary_table st) t (outbox st) (today st).
Definition set_outbox (o : list Mail) (st : State) : State :=
  mkState (diary_table st) (user_table st) o (today st).

(** ** Exceptions and the view monad *)

Inductive Exn :=
  | Http404
  | PermissionDenied
  | DoesNotExist
  | MultipleObjectsReturned
  | AttributeError
  | NoReverseMatch
  | KeyError
  | ValidationError (msg : string).

Inductive Result (A : Type) :=
  | Ok (a : A)
  | Raise (e : Exn).
Arguments Ok {A} a.
Arguments Raise {A} e.

Definition is_Ok {A} (r : Result A) : bool :=
  match r with Ok _ => true | Raise _ => false end.

(** ** Collaborators outside the repository

    [pytils.translit.slugify], the template engine, the password hasher,
    the cleaning of Django's form fields, the file storage and the
    settings constants are not part of the repository; the development is
    parametric in them.
    [CharField_clean max_length raw] and [EmailField_clean raw] stand for
    [Field.clean] on the submitted value ([None] when the key is absent),
    together with the validators of the model field behind it.
    [ImageField_clean file] stands for [Field.clean] of [forms.ImageField]
    on an uploaded file (name and size checks, the decoding of the image
    and the extension validator), and [storage_save file] for the name
    under which the storage keeps an upload of the field
    ([upload_to="media/diary/images"]), which is the value of the
    column. *)

Class External := {
  slugify : string → string;
  render_to_string : string → string → string;
  strip_tags : string → string;
  EMAIL_HOST_USER : string;
  LOGIN_URL : string;
  make_password : string → string;
  CharField_clean : option nat → option string → Result string;
  EmailField_clean : option string → Result string;
  ImageField_clean : string → Result string;
  storage_save : string → string;
}.

Definition M (A : Type) : Type := State → Result A * State.

Definition m_ret {A} (a : A) : M A := λ st, (Ok a, st).
Definition m_bind {A B} (m : M A) (f : A → M B) : M B := λ st,
  match m st with
  | (Ok a, st') => f a st'
  | (Raise e, st') => (Raise e, st')
  end.
Definition m_raise {A} (e : Exn) : M A := λ st, (Raise e, st).
Definition m_lift {A} (r : Result A) : M A := λ st, (r, st).
Definition m_gets {A} (f : State → A) : M A := λ st, (Ok (f st), st).
Definition m_modify (f : State → State) : M unit := λ st, (Ok tt, f st).

Notation "'do' x <- m ; k" := (m_bind m (λ x, k))
  (at level 10, x name, m at level 100, k at level 200, only parsing).
Notation "'do' ' p <- m ; k" := (m_bind m (λ x, match x with p => k end))
  (at level 10, p pattern, m at level 100, k at level 200, only parsing).
Notation "m ;; k" := (m_bind m (λ _, k))
  (at level 100, k at level 200, right associativity, only parsing).

(** ** The query sets used by the views

    A query set is the sub-map of the rows it selects. *)

Definition filter_slug (s : string) (q : gmap nat Diary) : gmap nat Diary :=
  filter (λ kd, slug kd.2 = Some s) q.
Definition filter_author (u : nat) (q : gmap nat Diary) : gmap nat Diary :=
  filter (λ kd, author kd.2 = Some u) q.
Definition filter_is_published (q : gmap nat Diary) : gmap nat Diary :=
  filter (λ kd, is_published kd.2 = true) q.
Definition filter_status (s : string) (q : gmap nat Diary) : gmap nat Diary :=
  filter (λ kd, status kd.2 = s) q.

(** [QuerySet.exists()] *)
Definition qs_exists {A} (q : gmap nat A) : bool :=
  match map_to_list q with [] => false | _ => true end.

(** [QuerySet.get()]: exactly one row, else [DoesNotExist] or
    [MultipleObjectsReturned]. *)
Definition qs_get {A} (q : gmap nat A) : Result (nat * A) :=
  match map_to_list q with
  | [] => Raise DoesNotExist
  | [kd] => Ok kd
  | _ => Raise MultipleObjectsReturned
  end.

(** [SingleObjectMixin.get_object] with the [slug] URL argument, and
    [get_object_or_404(Diary, slug=...)]: the lookup turns
    [DoesNotExist] into [Http404] and lets [MultipleObjectsReturned]
    through. *)
Definition get_by_slug (q : gmap nat Diary) (s : string) : Result (nat * Diary) :=
  match qs_get (filter_slug s q) with
  | Raise DoesNotExist => Raise Http404
  | r => r
  end.

(** The lookup as a step of a view, on the query set the view selects. *)
Definition SingleObjectMixin_get_object (get_queryset : State → gmap nat Diary)
    (slug_kw : string) : M (nat * Diary) :=
  do q <- m_gets get_queryset; m_lift (get_by_slug q slug_kw).

Section Program.
Context `{External}.

(** [Diary.get_unique_slug]: the [while] loop, with the number of
    iterations bounded by [fuel]; [get_unique_slug_enough_fuel] below shows
    that the bound given in [get_unique_slug] is never reached. *)
Fixpoint get_unique_slug_loop (fuel : nat) (db : gmap nat Diary)
    (base unique_slug : string) (num : nat) : string :=
  match fuel with
  | O => unique_slug
  | S fuel' =>
      if qs_exists (filter_slug unique_slug db)
      then get_unique_slug_loop fuel' db base (base +:+ "-" +:+ pretty num) (S num)
      else unique_slug
  end.

Definition get_unique_slug (db : gmap nat Diary) (d : Diary) : string :=
  let s := slugify (title d) in
  get_unique_slug_loop (S (size db)) db s s 1%nat.

(** Python's [str.lower], on the ASCII letters. *)
Definition ascii_lower (c : Ascii.ascii) : Ascii.ascii :=
  let n := Ascii.nat_of_ascii c in
  if ((65 <=? n) && (n <=? 90))%nat then Ascii.ascii_of_nat (n + 32) else c.

Fixpoint str_lower (s : string) : string :=
  match s with
  | EmptyString => EmptyString
  | String c rest => String (ascii_lower c) (str_lower rest)
  end.

(** Python truth value of a nullable string field. *)
Definition truthy (s : option string) : bool :=
  match s with
  | None => false
  | Some v => negb (String.eqb v "")
  end.

(** [Diary.save]: fill in the slug when it is empty, then write the row
    (an INSERT with a new primary key and [auto_now_add] for a new
    instance, an UPDATE of all fields otherwise). *)
Definition Diary_save (o : DiaryObj) : M DiaryObj := λ st,
  let db := diary_table st in
  let d := o.2 in
  let d := if truthy (slug d) then d else set_slug (Some (get_unique_slug db d)) d in
  match o.1 with
  | Some k => ((Ok (Some k, d)), set_diary_table (<[k:=d]> db) st)
  | None =>
      let k := fresh (dom db) in
      let d := set_created_at (today st) d in
      ((Ok (Some k, d)), set_diary_table (<[k:=d]> db) st)
  end.


(** [on_delete=models.SET_NULL] on [Diary.author]: deleting a user row
    nulls the author reference of that user's entries. *)
Definition User_delete (uid : nat) (st : State) : State :=
  let clear d := if bool_decide (author d = Some uid) then set_author None d else d in
  set_user_table (delete uid (user_table st))
    (set_diary_table (clear <$> diary_table st) st).

(** ** Requests and responses *)

Inductive RequestUser :=
  | AnonymousUser
  | AuthUser (uid : nat) (u : User).

(** [request.POST] and [request.GET] map a key to the submitted value,
    [request.FILES] the name of a file field to the uploaded file. *)
Record Request := mkRequest {
  user : RequestUser;
  POST : gmap string string;
  GET : gmap string string;
  get_host : string;
  FILES : gmap string string;
}.

Inductive Response :=
  | TemplateResponse (template : string) (object : option (nat * Diary))
  | FormInvalid (template : string) (errors : list (string * Exn))
  | HttpResponseRedirect (url : string).

(** The status code the client sees: Django answers [Http404] with 404,
    [PermissionDenied] with 403 and any other exception with 500. *)
Definition status_code (r : Result Response) : nat :=
  match r with
  | Ok (HttpResponseRedirect _) => 302
  | Ok _ => 200
  | Raise Http404 => 404
  | Raise PermissionDenied => 403
  | Raise _ => 500
  end%nat.

(** [request.user == diary.author]: model instances are equal when their
    primary keys are; [AnonymousUser] and [None] equal no user. *)
Definition user_is (u : RequestUser) (a : option nat) : bool :=
  match u, a with
  | AuthUser uid _, Some a => bool_decide (uid = a)
  | _, _ => false
  end.

(** [key in request.POST] *)
Definition in_POST (key : string) (request : Request) : bool :=
  bool_decide (is_Some (POST request !! key)).

(** [User.has_perm] *)
Definition has_perm (u : RequestUser) (perm : string) : bool :=
  match u with
  | AnonymousUser => false
  | AuthUser _ u => is_active u && (is_superuser u || bool_decide (perm ∈ user_permissions u))
  end.

(** [LoginRequiredMixin]: an anonymous request is redirected to the login
    page before the handler runs. *)
Definition LoginRequiredMixin (request : Request) (handler : M Response) : M Response :=
  match user request with
  | AnonymousUser => m_ret (HttpResponseRedirect LOGIN_URL)
  | AuthUser _ _ => handler
  end.

(** [PermissionRequiredMixin] behind [LoginRequiredMixin]: an
    authenticated user without the permission gets [PermissionDenied]. *)
Definition PermissionRequiredMixin (perm : string) (request : Request)
    (handler : M Response) : M Response :=
  if has_perm (user request) perm then handler else m_raise PermissionDenied.

(** [reverse("diary:detail", kwargs={"slug": ...})]; the [slug] converter
    of the URL pattern does not match an empty value. *)
Definition reverse_detail (s : option string) : Result string :=
  match s with
  | Some v => if String.eqb v "" then Raise NoReverseMatch else Ok ("/" +:+ v +:+ "/")
  | None => Raise NoReverseMatch
  end.

Definition send_mail (m : Mail) : M unit :=
  m_modify (λ st, set_outbox (outbox st ++ [m])%list st).

(** ** diary/views.py: DiaryDetailView *)

(** [Diary.objects.filter(pk=pk).update(views=F("views") + 1)]: the new
    count is computed by the store from the row it holds. *)
Definition increment_views (pk : nat) (db : gmap nat Diary) : gmap nat Diary :=
  alter (λ d, set_views (views d + 1) d) pk db.

Definition refresh_from_db (pk : nat) : M Diary := λ st,
  match diary_table st !! pk with
  | Some d => (Ok d, st)
  | None => (Raise DoesNotExist, st)
  end.

(** [diary.author.email]: the foreign key is followed to the user row;
    a null reference has no attribute [email]. *)
Definition author_email (d : Diary) : M string := λ st,
  match author d with
  | None => (Raise AttributeError, st)
  | Some a =>
      match user_table st !! a with
      | Some u => (Ok (email u), st)
      | None => (Raise DoesNotExist, st)
      end
  end.

Definition notification (d : Diary) (to : string) : Mail :=
  let html := render_to_string "diary/emails/email_notification.html" (title d) in
  mkMail "Уведомление" (strip_tags html) EMAIL_HOST_USER [to] (Some html).

Definition DiaryDetailView_get_object (request : Request) (slug_kw : string)
    : M (nat * Diary) :=
  do '(pk, diary) <- SingleObjectMixin_get_object diary_table slug_kw;
  if negb (is_published diary) && negb (user_is (user request) (author diary))
  then m_raise PermissionDenied
  else
    do diary <- (if is_published diary
                 then (m_modify (λ st, set_diary_table (increment_views pk (diary_table st)) st) ;;
                       refresh_from_db pk)
                 else m_ret diary);
    (if (views diary >=? 100)%Z
     then (do to <- author_email diary; send_mail (notification diary to))
     else m_ret tt) ;;
    m_ret (pk, diary).

(** The statements of [get_object] that follow
    [super().get_object(queryset)], as a function of the instance that
    call returned.  Requests are served concurrently, so these statements
    may run on a store in which other requests have written since the
    instance was fetched. *)
Definition DiaryDetailView_get_object_after_fetch (request : Request)
    (obj : nat * Diary) : M (nat * Diary) :=
  let '(pk, diary) := obj in
  if negb (is_published diary) && negb (user_is (user request) (author diary))
  then m_raise PermissionDenied
  else
    do diary <- (if is_published diary
                 then (m_modify (λ st, set_diary_table (increment_views pk (diary_table st)) st) ;;
                       refresh_from_db pk)
                 else m_ret diary);
    (if (views diary >=? 100)%Z
     then (do to <- author_email diary; send_mail (notification diary to))
     else m_ret tt) ;;
    m_ret (pk, diary).

Definition DiaryDetailView_get (request : Request) (slug_kw : string) : M Response :=
  do obj <- DiaryDetailView_get_object request slug_kw;
  m_ret (TemplateResponse "diary/diary_detail.html" (Some obj)).

Definition DiaryDetailView_post (request : Request) (slug_kw : string) : M Response :=
  do '(pk, diary) <- DiaryDetailView_get_object request slug_kw;
  do diary <- (if in_POST "publish" request
               then (do o <- Diary_save (Some pk, set_status "moderation" diary); m_ret o.2)
               else m_ret diary);
  do url <- m_lift (reverse_detail (slug diary));
  m_ret (HttpResponseRedirect url).

(** ** diary/views.py: the moderation views *)

Definition DiaryModerationListView_get_queryset (st : State) : gmap nat Diary :=
  filter_status "moderation" (diary_table st).

Definition DiaryModerationActionView_post (request : Request) (slug_kw : string)
    : M Response :=
  LoginRequiredMixin request (
  PermissionRequiredMixin "diary.can_moderate" request (
    do '(pk, diary) <- SingleObjectMixin_get_object diary_table slug_kw;
    (if in_POST "approve" request
     then (Diary_save (Some pk, set_is_published true (set_status "published" diary)) ;; m_ret tt)
     else if in_POST "reject" request
     then (Diary_save (Some pk, set_status "rejected" diary) ;; m_ret tt)
     else m_ret tt) ;;
    m_ret (HttpResponseRedirect "/moderation/"))).

(** ** diary/forms.py and the create, update and delete views *)

Record DiaryFormData := mkDiaryFormData {
  form_title : string;
  form_content : string;
  form_preview : option string;
}.

(** [CheckboxInput.value_from_datadict]: the box is checked when the key
    is submitted with a value that is neither empty nor, in any case of
    the letters, [false]. *)
Definition CheckboxInput_value (v : option string) : bool :=
  match v with
  | None => false
  | Some v => negb (String.eqb (str_lower v) "false") && negb (String.eqb v "")
  end.

(** The [preview] field of the form: [forms.ImageField], not required
    (the model field is [blank=True]), behind [ClearableFileInput].
    The upload is read from [request.FILES] and the clear box from
    [request.POST].  The cleaned value is [None] when nothing is
    submitted (with a stored image [FileField.clean] returns that image,
    and assigning it changes nothing), the empty name when the box is
    checked ([False], which [save_form_data] stores as [""]), and the
    validated upload otherwise, under the name the storage gives it when
    the instance is saved. *)
Definition preview_clean (request : Request) : Result (option string) :=
  let upload := FILES request !! "preview" in
  if CheckboxInput_value (POST request !! "preview-clear")
  then match upload with
       | Some _ => Raise (ValidationError
                            "Please either submit a file or check the clear checkbox, not both.")
       | None => Ok (Some "")
       end
  else match upload with
       | Some file =>
           match ImageField_clean file with
           | Ok file => Ok (Some (storage_save file))
           | Raise e => Raise e
           end
       | None => Ok None
       end.

(** Validation of the bound form: the three declared fields, the text
    fields from [request.POST] and the image from [request.FILES]. *)
Definition DiaryForm_clean (request : Request) : Result DiaryFormData :=
  match CharField_clean (Some 100%nat) (POST request !! "title") with
  | Raise e => Raise e
  | Ok t =>
      match CharField_clean None (POST request !! "content") with
      | Raise e => Raise e
      | Ok c =>
          match preview_clean request with
          | Raise e => Raise e
          | Ok p => Ok (mkDiaryFormData t c p)
          end
      end
  end.

(** [DiaryForm.save] and [DiaryUpdateForm.save] (the two bodies are the
    same): the instance carries the cleaned form fields; the slug is set
    from the title when it is empty. *)
Definition DiaryForm_save (commit : bool) (instance : DiaryObj) (f : DiaryFormData)
    : M DiaryObj :=
  let diary := set_form_fields (form_title f) (form_content f) (form_preview f) instance.2 in
  let diary := if truthy (slug diary) then diary
               else set_slug (Some (slugify (title diary))) diary in
  if commit then Diary_save (instance.1, diary) else m_ret (instance.1, diary).

Definition HomeListView_get_queryset (st : State) : gmap nat Diary :=
  filter_is_published (diary_table st).

Definition owned_queryset (request : Request) (st : State) : gmap nat Diary :=
  match user request with
  | AuthUser uid _ => filter_author uid (diary_table st)
  | AnonymousUser => ∅
  end.

(** [DiaryCreateView.form_valid]: the instance is saved once with the
    author set, and once more by [ModelFormMixin.form_valid]. *)
Definition DiaryCreateView_form_valid (request : Request) (f : DiaryFormData)
    : M Response :=
  do '(pk, diary) <- DiaryForm_save false (None, Diary_new "" "" None) f;
  let diary := set_author (match user request with
                           | AuthUser uid _ => Some uid
                           | AnonymousUser => None
                           end) diary in
  do o <- Diary_save (pk, diary);
  DiaryForm_save true o f ;;
  m_ret (HttpResponseRedirect "/diary/").

Definition DiaryCreateView_post (request : Request) : M Response :=
  LoginRequiredMixin request (
    match DiaryForm_clean request with
    | Ok f => DiaryCreateView_form_valid request f
    | Raise e => m_ret (FormInvalid "diary/diary_form.html" [("", e)])
    end).

Definition DiaryUpdateView_get_queryset := owned_queryset.

Definition DiaryUpdateView_post (request : Request) (slug_kw : string) : M Response :=
  LoginRequiredMixin request (
    do '(pk, diary) <- SingleObjectMixin_get_object
                         (DiaryUpdateView_get_queryset request) slug_kw;
    match DiaryForm_clean request with
    | Ok f =>
        do o <- DiaryForm_save true (Some pk, diary) f;
        do url <- m_lift (reverse_detail (slug o.2));
        m_ret (HttpResponseRedirect url)
    | Raise e => m_ret (FormInvalid "diary/diary_form.html" [("", e)])
    end).

Definition DiaryDeleteView_get_queryset := owned_queryset.

Definition DiaryDeleteView_post (request : Request) (slug_kw : string) : M Response :=
  LoginRequiredMixin request (
    do '(pk, diary) <- SingleObjectMixin_get_object
                         (DiaryDeleteView_get_queryset request) slug_kw;
    m_modify (λ st, set_diary_table (delete pk (diary_table st)) st) ;;
    m_ret (HttpResponseRedirect "/diary/")).

(** ** users/forms.py: UserRegisterForm *)

(** Field defaults of a new [User()]. *)
Definition User_new (e : string) : User :=
  mkUser e "" "" "" None (Some "Не указано") (Some "Не указано") None true false ∅.

Definition User_save (pk : option nat) (u : User) : M nat := λ st,
  let k := match pk with Some k => k | None => fresh (dom (user_table st)) end in
  (Ok k, set_user_table (<[k:=u]> (user_table st)) st).

(** [UserRegisterForm.clean_password] *)
Definition clean_password (cleaned_data : gmap string string) : Result (option string) :=
  let password1 := cleaned_data !! "password1" in
  let password2 := cleaned_data !! "password2" in
  if truthy password1 && truthy password2 && negb (bool_decide (password1 = password2))
  then Raise (ValidationError "Пароли не совпадают")
  else Ok password2.

(** The fields of the form, in declaration order, and the [clean_...]
    methods its class defines. *)
Definition UserRegisterForm_fields : list (string * (option string → Result string)) :=
  [("email", EmailField_clean);
   ("password1", CharField_clean None);
   ("password2", CharField_clean None)].

Definition UserRegisterForm_methods
    : list (string * (gmap string string → Result (option string))) :=
  [("clean_password", clean_password)].

(** [getattr(form, name)] over the methods a form class defines. *)
Fixpoint getattr {A} (name : string) (methods : list (string * A)) : option A :=
  match methods with
  | [] => None
  | (n, m) :: rest => if String.eqb n name then Some m else getattr name rest
  end.

(** [BaseForm._clean_fields]: every declared field is cleaned, and after
    a field named [name] the method [clean_<name>] runs when the form has
    one; an error removes the field from [cleaned_data]. *)
Fixpoint clean_fields (fields : list (string * (option string → Result string)))
    (methods : list (string * (gmap string string → Result (option string))))
    (data cleaned_data : gmap string string) (errors : list (string * Exn))
    : gmap string string * list (string * Exn) :=
  match fields with
  | [] => (cleaned_data, errors)
  | (name, field_clean) :: rest =>
      let '(cleaned_data, errors) :=
        match field_clean (data !! name) with
        | Raise e => (delete name cleaned_data, (errors ++ [(name, e)])%list)
        | Ok value =>
            let cleaned_data := <[name:=value]> cleaned_data in
            match getattr ("clean_" +:+ name) methods with
            | None => (cleaned_data, errors)
            | Some method =>
                match method cleaned_data with
                | Ok (Some value) => (<[name:=value]> cleaned_data, errors)
                | Ok None => (delete name cleaned_data, errors)
                | Raise e => (delete name cleaned_data, (errors ++ [(name, e)])%list)
                end
            end
        end in
      clean_fields rest methods data cleaned_data errors
  end.

(** [ModelForm._post_clean] for [Meta.fields = ["email"]]: the e-mail
    address is unique among the users. *)
Definition validate_unique_email (st : State) (cleaned_data : gmap string string)
    : list (string * Exn) :=
  match cleaned_data !! "email" with
  | Some e =>
      if qs_exists (filter (λ ku, email ku.2 = e) (user_table st))
      then [("email", ValidationError "unique")]
      else []
  | None => []
  end.

Definition UserRegisterForm_full_clean (st : State) (request : Request)
    : gmap string string * list (string * Exn) :=
  let '(cleaned_data, errors) :=
    clean_fields UserRegisterForm_fields UserRegisterForm_methods (POST request) ∅ [] in
  (cleaned_data, (errors ++ validate_unique_email st cleaned_data)%list).

(** ** users/views.py: RegisterView

    [verification_code] is the value [secrets.token_hex(16)] returns. *)

Definition RegisterView_form_valid (request : Request)
    (cleaned_data : gmap string string) (verification_code : string) : M Response :=
  let u := User_new (default "" (cleaned_data !! "email")) in
  do password1 <- m_lift (match cleaned_data !! "password1" with
                          | Some p => Ok p
                          | None => Raise KeyError
                          end);
  let u := mkUser (email u) (make_password password1) (first_name u) (last_name u)
             (avatar u) (num_phone u) (country u) (Some verification_code)
             false (is_superuser u) (user_permissions u) in
  do pk <- User_save None u;
  let url := "http://" +:+ get_host request +:+ "/users/email-confirm/" +:+ verification_code in
  send_mail (mkMail "Подтверждение почты"
               ("Для подтверждения почты перейдите по ссылке: " +:+ url)
               EMAIL_HOST_USER [email u] None) ;;
  User_save (Some pk) u ;;
  m_ret (HttpResponseRedirect "/users/login/").

Definition RegisterView_post (request : Request) (verification_code : string)
    : M Response := λ st,
  match UserRegisterForm_full_clean st request with
  | (cleaned_data, []) => RegisterView_form_valid request cleaned_data verification_code st
  | (_, errors) => (Ok (FormInvalid "users/register.html" errors), st)
  end.

(** ** The operations of the application as one step function *)

Inductive Op :=
  | OpDetailGet (request : Request) (slug_kw : string)
  | OpDetailPost (request : Request) (slug_kw : string)
  | OpModerationAction (request : Request) (slug_kw : string)
  | OpCreate (request : Request)
  | OpUpdate (request : Request) (slug_kw : string)
  | OpDelete (request : Request) (slug_kw : string)
  | OpRegister (request : Request) (verification_code : string)
  | OpUserDelete (uid : nat).

Definition exec (op : Op) (st : State) : State :=
  match op with
  | OpDetailGet r s => (DiaryDetailView_get r s st).2
  | OpDetailPost r s => (DiaryDetailView_post r s st).2
  | OpModerationAction r s => (DiaryModerationActionView_post r s st).2
  | OpCreate r => (DiaryCreateView_post r st).2
  | OpUpdate r s => (DiaryUpdateView_post r s st).2
  | OpDelete r s => (DiaryDeleteView_post r s st).2
  | OpRegister r c => (RegisterView_post r c st).2
  | OpUserDelete uid => User_delete uid st
  end.

Definition empty_state (d : nat) : State := mkState ∅ ∅ [] d.

Inductive reachable : State → Prop :=
  | reachable_empty d : reachable (empty_state d)
  | reachable_step op st : reachable st → reachable (exec op st).

End Program.


(** * The remaining views and the management command *)

(** [title__icontains] is evaluated by the database; its case-insensitive
    containment test is a parameter ([icontains title query]). *)
Class Collation := {
  icontains : string → string → bool;
}.

(** What a function-based view hands back: the response, if it returns
    one, and the messages it has queued with [django.contrib.messages]. *)
Record Reply := mkReply {
  response : option Response;
  queued : list (string * string);
}.

(** [get_object_or_404] on a query set of any table. *)
Definition get_object_or_404 {A} (q : gmap nat A) : Result (nat * A) :=
  match qs_get q with
  | Raise DoesNotExist => Raise Http404
  | r => r
  end.

Definition filter_email (e : string) (q : gmap nat User) : gmap nat User :=
  filter (λ ku, email ku.2 = e) q.
Definition filter_verification_code (c : string) (q : gmap nat User) : gmap nat User :=
  filter (λ ku, verification_code ku.2 = Some c) q.

Section Accounts.
Context `{External} `{Collation}.

(** ** diary/views.py: DiaryListView *)

Definition DiaryListView_get_queryset (request : Request) (st : State)
    : gmap nat Diary :=
  let queryset := owned_queryset request st in
  let query := GET request !! "q" in
  if truthy query
  then filter (λ kd, icontains (title kd.2) (default "" query) = true) queryset
  else queryset.

(** ** users/views.py: email_confirm *)

Definition email_confirm (request : Request) (code : string) : M Reply :=
  do '(pk, u) <- m_bind (m_gets user_table)
                   (λ users, m_lift (get_object_or_404 (filter_verification_code code users)));
  if is_active u
  then m_ret (mkReply None [("info", "Аккаунт уже активирован.")])
  else
    let u := mkUser (email u) (password u) (first_name u) (last_name u)
               (avatar u) (num_phone u) (country u) None
               true (is_superuser u) (user_permissions u) in
    User_save (Some pk) u ;;
    m_ret (mkReply (Some (HttpResponseRedirect "/users/login/")) []).

(** ** users/views.py: GeneratePasswordView

    [new_password] is the value [make_random_password(length=8)] returns. *)

Definition password_mail (new_password to : string) : Mail :=
  mkMail "Смена пароля"
    ("Здравствуйте. Вы запросили генерацию нового пароля для сайта. "
       +:+ "Ваш новый пароль: " +:+ new_password)
    EMAIL_HOST_USER [to] None.

Definition GeneratePasswordView_form_valid (request : Request)
    (address new_password : string) : M Reply := λ st,
  match qs_get (filter_email address (user_table st)) with
  | Ok (pk, u) =>
      let u := mkUser (email u) (make_password new_password) (first_name u)
                 (last_name u) (avatar u) (num_phone u) (country u)
                 (verification_code u) (is_active u) (is_superuser u)
                 (user_permissions u) in
      (User_save (Some pk) u ;;
       send_mail (password_mail new_password (email u)) ;;
       m_ret (mkReply (Some (HttpResponseRedirect "/users/login/")) [])) st
  | Raise DoesNotExist =>
      (Ok (mkReply (Some (FormInvalid "users/reset_password.html" []))
             [("error", "Пользователь с таким email не найден.")]), st)
  | Raise e => (Raise e, st)
  end.

Definition GeneratePasswordView_post (request : Request) (new_password : string)
    : M Reply :=
  match EmailField_clean (POST request !! "email") with
  | Ok address => GeneratePasswordView_form_valid request address new_password
  | Raise e => m_ret (mkReply (Some (FormInvalid "users/reset_password.html"
                                       [("email", e)])) [])
  end.

(** ** users/management/commands/generate_fake_data.py

    [fake i] is the pair [(fake.sentence(), fake.paragraph())] drawn in the
    [i]-th round of the loop. *)

(** [Diary.objects.create(...)]: a new instance, saved. *)
Definition Diary_objects_create (d : Diary) : M DiaryObj := Diary_save (None, d).

Fixpoint handle_loop (fake : nat → string * string) (author_pk : nat)
    (i rounds : nat) : M unit :=
  match rounds with
  | O => m_ret tt
  | S rounds' =>
      Diary_objects_create
        (set_status "no_published"
           (set_author (Some author_pk) (Diary_new (fake i).1 (fake i).2 None))) ;;
      handle_loop fake author_pk (S i) rounds'
  end.

Definition Command_handle (address : string) (fake : nat → string * string)
    : M string := λ st,
  match qs_get (filter_email address (user_table st)) with
  | Ok (pk, _) =>
      (handle_loop fake pk 0%nat 20%nat ;;
       m_ret ("Успешно сгенерировано 20 записей для пользователя " +:+ address)) st
  | Raise DoesNotExist =>
      (Ok ("Пользователь с email " +:+ address +:+ " не найден."), st)
  | Raise e => (Raise e, st)
  end.

End Accounts.
(** * Sample inputs

    A concrete choice of the collaborators, used where a statement is
    evaluated on an example.  [slugify] is the identity, which is what
    pytils does on the lower-case ASCII words used below; the field
    cleaners accept any non-empty value, and the storage keeps an upload
    under its own name. *)

Definition sample_external : External := {|
  slugify := λ s, s;
  render_to_string := λ _ t, "<p>" +:+ t +:+ "</p>";
  strip_tags := λ s, s;
  EMAIL_HOST_USER := "noreply@localhost";
  LOGIN_URL := "/users/login/";
  make_password := λ p, "hash$" +:+ p;
  CharField_clean := λ _ v,
    match v with
    | Some s => if String.eqb s "" then Raise (ValidationError "required") else Ok s
    | None => Raise (ValidationError "required")
    end;
  EmailField_clean := λ v,
    match v with
    | Some s => if String.eqb s "" then Raise (ValidationError "required") else Ok s
    | None => Raise (ValidationError "required")
    end;
  ImageField_clean := λ file,
    if String.eqb file "" then Raise (ValidationError "invalid_image") else Ok file;
  storage_save := λ file, "media/diary/images/" +:+ file;
|}.

Definition alice : User := User_new "alice@localhost".
Definition bob : User := User_new "bob@localhost".
Definition moderator : User :=
  mkUser "mod@localhost" "" "" "" None None None None true false {["diary.can_moderate"]}.

Definition as_user (uid : nat) (u : User) (post : gmap string string) : Request :=
  mkRequest (AuthUser uid u) post ∅ "localhost" ∅.
Definition anonymous (post : gmap string string) : Request :=
  mkRequest AnonymousUser post ∅ "localhost" ∅.

Definition sample_users : gmap nat User :=
  {[ 1%nat := alice; 2%nat := bob; 3%nat := moderator ]}.

(** Alice's unpublished entry, already viewed 100 times. *)
Definition draft : Diary :=
  mkDiary "note" "text" (Some "note") (Some 1%nat) false "no_published" None 0%nat 100.
Definition draft_state : State := mkState {[ 7%nat := draft ]} sample_users [] 0%nat.

(** A published entry whose author was deleted, viewed 99 times. *)
Definition orphan : Diary :=
  mkDiary "old" "text" (Some "old") None true "published" None 0%nat 99.
Definition orphan_state : State := mkState {[ 4%nat := orphan ]} sample_users [] 0%nat.

(** Alice's published entry. *)
Definition story : Diary :=
  mkDiary "story" "text" (Some "story") (Some 1%nat) true "published" None 0%nat 5.
Definition story_state : State := mkState {[ 5%nat := story ]} sample_users [] 0%nat.

Definition publish_form : gmap string string := {[ "publish" := "1" ]}.
Definition approve_form : gmap string string := {[ "approve" := "1" ]}.
Definition reject_form : gmap string string := {[ "reject" := "1" ]}.

(** * Invariants of the entry table

    [flag_implies_status] is the invariant in the words of the
    specification; [workflow_row] is the relation between the flag and
    the status that the views maintain. *)

Definition flag_implies_status (d : Diary) : Prop :=
  is_published d = true → status d = "published".

Definition workflow_row (d : Diary) : Prop :=
  (status d = "published" → is_published d = true) ∧
  (is_published d = true →
     status d = "published" ∨ status d = "moderation" ∨ status d = "rejected").

Definition every_entry (P : Diary → Prop) (st : State) : Prop :=
  map_Forall (λ _ d, P d) (diary_table st).

(** The value of [unique_slug] when the loop of [get_unique_slug] tests
    its condition for the [i]-th time, counting from zero. *)
Definition candidate (base : string) (i : nat) : string :=
  match i with
  | O => base
  | S _ => base +:+ "-" +:+ pretty i
  end.

Definition edit_form : gmap string string :=
  {[ "title" := "changed"; "content" := "changed" ]}.

(** The state after [n] GET requests of one client for one slug. *)
Fixpoint reads `{External} (n : nat) (request : Request) (slug_kw : string)
    (st : State) : State :=
  match n with
  | O => st
  | S n' => reads n' request slug_kw (DiaryDetailView_get request slug_kw st).2
  end.

(** * Further predicates and sample inputs *)

(** No two rows share a slug. *)
Definition slugs_unique (db : gmap nat Diary) : Prop :=
  ∀ k1 k2 d1 d2 s,
    db !! k1 = Some d1 → db !! k2 = Some d2 →
    slug d1 = Some s → slug d2 = Some s → k1 = k2.

(** How an operation may change a row that it keeps, and what a row it
    adds looks like. *)
Definition row_step (d d' : Diary) : Prop :=
  views d ≤ views d' ≤ views d + 1 ∧
  (is_published d = true → is_published d' = true) ∧
  (truthy (slug d) = true → slug d' = slug d) ∧
  created_at d' = created_at d ∧
  (author d' = author d ∨ author d' = None).

Definition new_row (d' : Diary) : Prop :=
  views d' = 0 ∧ is_published d' = false ∧ status d' = "no_published".

(** Containment of [q] in [t], exact in case; on the lower-case sample
    titles it agrees with the database's test. *)
Fixpoint contains (t q : string) : bool :=
  String.prefix q t ||
  match t with
  | EmptyString => false
  | String _ t' => contains t' q
  end.

Definition sample_collation : Collation := {| icontains := contains |}.

Definition sample_fake (i : nat) : string * string :=
  ("lorem" +:+ pretty i, "ipsum").

(** Carol has registered and not yet confirmed. *)
Definition carol : User :=
  mkUser "carol@localhost" "hash$secret" "" "" None None None
         (Some "0123456789abcdef") false false ∅.
Definition pending_state : State :=
  mkState {[ 7%nat := draft ]}
          {[ 1%nat := alice; 2%nat := bob; 4%nat := carol ]} [] 0%nat.

Definition register_form : gmap string string :=
  {[ "email" := "carol@localhost"; "password1" := "secret"; "password2" := "secret" ]}.

(** The entry Alice creates on the empty table with [edit_form]. *)
Definition first_entry : Diary :=
  mkDiary "changed" "changed" (Some "changed") (Some 1%nat) false "no_published"
          None 0%nat 0.


(** Alice's unpublished entry with a stored image. *)
Definition pictured : Diary :=
  mkDiary "pic" "text" (Some "pic") (Some 1%nat) false "no_published"
          (Some "media/diary/images/old.png") 0%nat 0.
Definition pictured_state : State := mkState {[ 9%nat := pictured ]} sample_users [] 0%nat.

(** Alice's request with the edit form and an uploaded file. *)
Definition upload_request (file : string) : Request :=
  mkRequest (AuthUser 1%nat alice) edit_form ∅ "localhost" {[ "preview" := file ]}.

(** Alice's published entry one read before the hundredth. *)
Definition popular : Diary :=
  mkDiary "story" "text" (Some "story") (Some 1%nat) true "published" None 0%nat 99.
Definition popular_state : State := mkState {[ 5%nat := popular ]} sample_users [] 0%nat.

(** * Properties *)

(** ** The view monad *)

Lemma m_bind_Ok {A B} (m : M A) (f : A → M B) st a st1 :
  m st = (Ok a, st1) → m_bind m f st = f a st1.
Proof. intros Hm. unfold m_bind. by rewrite Hm. Qed.

Lemma m_bind_Raise {A B} (m : M A) (f : A → M B) st e st1 :
  m st = (Raise e, st1) → m_bind m f st = (Raise e, st1).
Proof. intros Hm. unfold m_bind. by rewrite Hm. Qed.

Lemma m_bind_ret {A B} (a : A) (f : A → M B) st : m_bind (m_ret a) f st = f a st.
Proof. reflexivity. Qed.

Lemma m_bind_state {A B} (m : M A) (f : A → M B) st :
  (∀ a st1, (f a st1).2 = st1) → (m_bind m f st).2 = (m st).2.
Proof. intros Hf. unfold m_bind. destruct (m st) as [[a|e] st1]; [apply Hf|done]. Qed.

Lemma get_object_run q s st :
  SingleObjectMixin_get_object q s st = (get_by_slug (q st) s, st).
Proof. reflexivity. Qed.

(** ** Query sets *)

Lemma qs_get_Ok {A} (q : gmap nat A) k d :
  qs_get q = Ok (k, d) ↔ q = {[k := d]}.
Proof.
  unfold qs_get. split.
  - intros Hq. rewrite <- (list_to_map_to_list q).
    destruct (map_to_list q) as [|x [|y l]]; simplify_eq. reflexivity.
  - intros ->. by rewrite map_to_list_singleton.
Qed.

Lemma qs_get_Raise_DoesNotExist {A} (q : gmap nat A) :
  qs_get q = Raise DoesNotExist ↔ q = ∅.
Proof.
  unfold qs_get. rewrite <- map_to_list_empty_iff.
  destruct (map_to_list q) as [|x [|y l]]; naive_solver.
Qed.

Lemma qs_exists_false {A} (q : gmap nat A) : qs_exists q = false ↔ q = ∅.
Proof.
  unfold qs_exists. rewrite <- map_to_list_empty_iff.
  destruct (map_to_list q); naive_solver.
Qed.

Lemma get_by_slug_Ok db s k d :
  get_by_slug db s = Ok (k, d) ↔ filter_slug s db = {[k := d]}.
Proof.
  unfold get_by_slug. rewrite <- qs_get_Ok.
  destruct (qs_get (filter_slug s db)) as [|[]]; naive_solver.
Qed.

Lemma filter_slug_lookup db s k d :
  filter_slug s db !! k = Some d ↔ db !! k = Some d ∧ slug d = Some s.
Proof. unfold filter_slug. by rewrite map_lookup_filter_Some. Qed.

Lemma get_by_slug_lookup db s k d :
  get_by_slug db s = Ok (k, d) → db !! k = Some d ∧ slug d = Some s.
Proof.
  rewrite get_by_slug_Ok. intros Hq. apply filter_slug_lookup.
  rewrite Hq. apply lookup_singleton_eq.
Qed.

Lemma get_by_slug_only db s k d k' d' :
  get_by_slug db s = Ok (k, d) → db !! k' = Some d' → slug d' = Some s → k' = k.
Proof.
  rewrite get_by_slug_Ok. intros Hq Hk' Hs.
  assert (filter_slug s db !! k' = Some d') as Hf.
  { by apply filter_slug_lookup. }
  rewrite Hq in Hf. by apply lookup_singleton_Some in Hf as [? _].
Qed.

Lemma get_by_slug_intro db s k d :
  db !! k = Some d → slug d = Some s →
  (∀ k' d', db !! k' = Some d' → slug d' = Some s → k' = k) →
  get_by_slug db s = Ok (k, d).
Proof.
  intros Hk Hs Hu. apply get_by_slug_Ok. apply map_eq. intros i.
  destruct (decide (i = k)) as [->|Hne].
  - rewrite lookup_singleton_eq. by apply filter_slug_lookup.
  - rewrite lookup_singleton_ne by done.
    destruct (filter_slug s db !! i) as [d'|] eqn:Hi; [|done].
    apply filter_slug_lookup in Hi as [Hi Hs']. by destruct Hne; eapply Hu.
Qed.

Lemma get_by_slug_Http404 db s :
  get_by_slug db s = Raise Http404 ↔ filter_slug s db = ∅.
Proof.
  unfold get_by_slug, qs_get. rewrite <- map_to_list_empty_iff.
  destruct (map_to_list (filter_slug s db)) as [|x [|y l]]; split; congruence.
Qed.

(** ** The detail view, case by case *)

Section Detail.
Context `{External}.

Lemma increment_views_lookup (db : gmap nat Diary) k d :
  db !! k = Some d →
  increment_views k db !! k = Some (set_views (views d + 1) d).
Proof. intros Hk. unfold increment_views. by rewrite lookup_alter_eq, Hk. Qed.

Lemma increment_views_lookup_ne (db : gmap nat Diary) k k' :
  k ≠ k' → increment_views k db !! k' = db !! k'.
Proof. intros Hne. unfold increment_views. by rewrite lookup_alter_ne. Qed.

(** What [get_object] does once the slug has selected the row [d] under
    the key [k]: the branches of the source, with the state each leaves. *)
Lemma get_object_found st request s k d :
  get_by_slug (diary_table st) s = Ok (k, d) →
  DiaryDetailView_get_object request s st =
    if negb (is_published d) && negb (user_is (user request) (author d))
    then (Raise PermissionDenied, st)
    else
      let d' := if is_published d then set_views (views d + 1) d else d in
      let st1 := if is_published d
                 then set_diary_table (increment_views k (diary_table st)) st
                 else st in
      if (views d' >=? 100)%Z
      then match author d with
           | None => (Raise AttributeError, st1)
           | Some a =>
               match user_table st !! a with
               | Some u => (Ok (k, d'),
                            set_outbox (outbox st ++ [notification d' (email u)])%list st1)
               | None => (Raise DoesNotExist, st1)
               end
           end
      else (Ok (k, d'), st1).
Proof.
  intros Hget. pose proof (get_by_slug_lookup _ _ _ _ Hget) as [Hk _].
  unfold DiaryDetailView_get_object.
  rewrite (m_bind_Ok _ _ _ _ _ (eq_trans (get_object_run _ _ _) (f_equal (., st) Hget))).
  unfold m_bind.
  destruct (is_published d) eqn:Hp; cbn [negb andb].
  - unfold m_modify, refresh_from_db, m_raise, m_ret, send_mail, author_email. cbn.
    rewrite (increment_views_lookup _ _ _ Hk). cbn.
    destruct (views d + 1 >=? 100)%Z; [|done].
    destruct (author d) as [a|]; [|done]. cbn.
    by destruct (user_table st !! a).
  - destruct (user_is (user request) (author d)); cbn [negb]; [|done].
    unfold m_raise, m_ret, send_mail, author_email, m_modify. cbn.
    destruct (views d >=? 100)%Z; [|done].
    destruct (author d) as [a|]; [|done]. cbn.
    by destruct (user_table st !! a).
Qed.

Lemma increment_views_insert (db : gmap nat Diary) k d :
  db !! k = Some d →
  increment_views k db = <[k:=set_views (views d + 1) d]> db.
Proof.
  intros Hk. apply map_eq. intros i. destruct (decide (i = k)) as [->|Hne].
  - by rewrite lookup_insert_eq, (increment_views_lookup _ _ _ Hk).
  - by rewrite lookup_insert_ne, increment_views_lookup_ne.
Qed.

(** [get_object] is the fetch followed by the remaining statements. *)
Lemma get_object_fetch_then_rest request s :
  DiaryDetailView_get_object request s
    = m_bind (SingleObjectMixin_get_object diary_table s)
             (DiaryDetailView_get_object_after_fetch request).
Proof. reflexivity. Qed.

(** The remaining statements on an instance fetched as published, run on
    a store that holds the row [d] under its key: whatever the instance
    holds, the row written and the entry returned are made from [d]. *)
Lemma after_fetch_published st request k snapshot d :
  is_published snapshot = true →
  diary_table st !! k = Some d →
  DiaryDetailView_get_object_after_fetch request (k, snapshot) st =
    let d' := set_views (views d + 1) d in
    let st1 := set_diary_table (increment_views k (diary_table st)) st in
    if (views d' >=? 100)%Z
    then match author d with
         | None => (Raise AttributeError, st1)
         | Some a =>
             match user_table st !! a with
             | Some u => (Ok (k, d'),
                          set_outbox (outbox st ++ [notification d' (email u)])%list st1)
             | None => (Raise DoesNotExist, st1)
             end
         end
    else (Ok (k, d'), st1).
Proof.
  intros Hp Hk. unfold DiaryDetailView_get_object_after_fetch. rewrite Hp.
  cbn [negb andb]. unfold m_bind.
  unfold m_modify, refresh_from_db, m_raise, m_ret, send_mail, author_email. cbn.
  rewrite (increment_views_lookup _ _ _ Hk). cbn.
  destruct (views d + 1 >=? 100)%Z; [|done].
  destruct (author d) as [a|]; [|done]. cbn.
  by destruct (user_table st !! a).
Qed.

(** The only write of these statements to the entry table is the one
    relative update, whatever the store holds. *)
Lemma after_fetch_table st request k snapshot :
  is_published snapshot = true →
  diary_table (DiaryDetailView_get_object_after_fetch request (k, snapshot) st).2
    = increment_views k (diary_table st).
Proof.
  intros Hp. destruct (diary_table st !! k) as [d|] eqn:Hk.
  - rewrite (after_fetch_published _ _ _ _ _ Hp Hk). cbn zeta.
    destruct (views (set_views (views d + 1) d) >=? 100)%Z; [|done].
    destruct (author d) as [a|]; [|done].
    by destruct (user_table st !! a).
  - unfold DiaryDetailView_get_object_after_fetch. rewrite Hp.
    cbn [negb andb]. unfold m_bind, m_modify, refresh_from_db. cbn.
    replace (increment_views k (diary_table st) !! k) with (@None Diary); [done|].
    unfold increment_views. by rewrite lookup_alter_eq, Hk.
Qed.

Lemma get_object_not_found st request s e :
  get_by_slug (diary_table st) s = Raise e →
  DiaryDetailView_get_object request s st = (Raise e, st).
Proof.
  intros Hget. unfold DiaryDetailView_get_object, m_bind.
  by rewrite get_object_run, Hget.
Qed.

Lemma user_is_author request d :
  user_is (user request) (author d) = true → ∃ a, author d = Some a.
Proof. unfold user_is. destruct (user request), (author d); naive_solver. Qed.

End Detail.

(** ** Reads of the detail view *)

Section Reads.
Context `{External}.

(** C1 (as amended).  A read of an unpublished entry never changes the
    entry table, hence no view-count.  It sends no mail when the requester
    is not the author (the read is refused) or the count is below 100;
    when the author reads an own unpublished entry whose count is already
    100 or more, the notification is sent to the author once. *)
Theorem unpublished_read_effects st request s k d :
  get_by_slug (diary_table st) s = Ok (k, d) →
  is_published d = false →
  diary_table (DiaryDetailView_get_object request s st).2 = diary_table st ∧
  (user_is (user request) (author d) = false ∨ views d < 100 →
     outbox (DiaryDetailView_get_object request s st).2 = outbox st) ∧
  (∀ a u, user_is (user request) (author d) = true → 100 ≤ views d →
     author d = Some a → user_table st !! a = Some u →
     outbox (DiaryDetailView_get_object request s st).2
       = (outbox st ++ [notification d (email u)])%list).
Proof.
  intros Hget Hp. rewrite (get_object_found _ _ _ _ _ Hget), Hp. cbn [negb andb].
  destruct (user_is (user request) (author d)) eqn:Hu; cbn [negb].
  - destruct (Z.geb_spec (views d) 100) as [Hge|Hlt].
    + destruct (author d) as [a|] eqn:Ha.
      * destruct (user_table st !! a) as [u|] eqn:Hua; cbn.
        -- split_and!; [done|intros [?|?]; [done|lia]|]. intros ?? _ _ ??; by simplify_eq.
        -- split_and!; [done|intros [?|?]; [done|lia]|]. intros ?? _ _ ??; by simplify_eq.
      * by destruct (user request).
    + cbn. split_and!; [done|done|]. intros; lia.
  - cbn. split_and!; done.
Qed.

(** C3.  A successful read of a published entry returns the entry with
    its count raised by one and stores exactly that increment, every
    other row and field staying as it was.  The increment is one update
    of the store relative to the row it holds at that moment: run on a
    store in which other requests have written since the entry was
    fetched, the statements after the fetch add one to the stored count,
    not to the fetched one, so two reads that both fetch before either
    updates raise the count by two.  Below 100 no mail is sent; from 100
    on every such read appends exactly one mail with the subject
    [Уведомление], the rendered notification template as its text and
    the address of the entry's author as its only recipient, whatever
    the outbox already holds. *)
Theorem published_read_increments_and_notifies st request s k d r st' :
  get_by_slug (diary_table st) s = Ok (k, d) →
  is_published d = true →
  DiaryDetailView_get_object request s st = (Ok r, st') →
  r = (k, set_views (views d + 1) d) ∧
  diary_table st' = increment_views k (diary_table st) ∧
  diary_table st' = <[k:=set_views (views d + 1) d]> (diary_table st) ∧
  diary_table st' !! k = Some (set_views (views d + 1) d) ∧
  user_table st' = user_table st ∧
  (∀ db d0, db !! k = Some d0 →
     increment_views k db !! k = Some (set_views (views d0 + 1) d0)) ∧
  (views d + 1 < 100 → outbox st' = outbox st) ∧
  (100 ≤ views d + 1 →
     ∃ a u, author d = Some a ∧ user_table st !! a = Some u ∧
       outbox st' =
         (outbox st ++
            [mkMail "Уведомление"
               (strip_tags (render_to_string "diary/emails/email_notification.html"
                              (title d)))
               EMAIL_HOST_USER
               [email u]
               (Some (render_to_string "diary/emails/email_notification.html"
                        (title d)))])%list) ∧
  DiaryDetailView_get_object request s
    = m_bind (SingleObjectMixin_get_object diary_table s)
             (DiaryDetailView_get_object_after_fetch request) ∧
  (∀ request2 st2,
     diary_table (DiaryDetailView_get_object_after_fetch request2 (k, d) st2).2
       = increment_views k (diary_table st2)) ∧
  (∀ request2 st2 d2, diary_table st2 !! k = Some d2 →
     diary_table (DiaryDetailView_get_object_after_fetch request2 (k, d) st2).2
       = <[k:=set_views (views d2 + 1) d2]> (diary_table st2) ∧
     ∀ r2, (DiaryDetailView_get_object_after_fetch request2 (k, d) st2).1 = Ok r2 →
           r2 = (k, set_views (views d2 + 1) d2)) ∧
  (∀ request2,
     diary_table (DiaryDetailView_get_object_after_fetch request2 (k, d) st').2 !! k
       = Some (set_views (views d + 2) d)).
Proof.
  intros Hget Hp Hrun. pose proof (get_by_slug_lookup _ _ _ _ Hget) as [Hk _].
  pose proof (increment_views_lookup _ _ _ Hk) as Hinc.
  pose proof (increment_views_insert _ _ _ Hk) as Hins.
  assert (∀ request2 st2 d2, diary_table st2 !! k = Some d2 →
     diary_table (DiaryDetailView_get_object_after_fetch request2 (k, d) st2).2
       = <[k:=set_views (views d2 + 1) d2]> (diary_table st2) ∧
     ∀ r2, (DiaryDetailView_get_object_after_fetch request2 (k, d) st2).1 = Ok r2 →
           r2 = (k, set_views (views d2 + 1) d2)) as Hstale.
  { intros request2 st2 d2 Hk2. split.
    - by rewrite (after_fetch_table _ _ _ _ Hp), (increment_views_insert _ _ _ Hk2).
    - rewrite (after_fetch_published _ _ _ _ _ Hp Hk2). cbn zeta.
      destruct (views (set_views (views d2 + 1) d2) >=? 100)%Z.
      + destruct (author d2) as [a|]; [|done].
        destruct (user_table st2 !! a); [|done]. by intros r2 [= <-].
      + by intros r2 [= <-]. }
  assert (diary_table st' = increment_views k (diary_table st) ∧
          user_table st' = user_table st ∧
          r = (k, set_views (views d + 1) d)) as (Htable & Husers & Hr).
  { rewrite (get_object_found _ _ _ _ _ Hget), Hp in Hrun. cbn [negb andb] in Hrun.
    cbn zeta in Hrun.
    destruct (views (set_views (views d + 1) d) >=? 100)%Z.
    - destruct (author d) as [a|]; [|done].
      destruct (user_table st !! a); [|done]. by injection Hrun as <- <-.
    - by injection Hrun as <- <-. }
  split_and!.
  - exact Hr.
  - exact Htable.
  - by rewrite Htable.
  - by rewrite Htable.
  - exact Husers.
  - intros. by apply increment_views_lookup.
  - intros Hlt. rewrite (get_object_found _ _ _ _ _ Hget), Hp in Hrun.
    cbn [negb andb] in Hrun. cbn zeta in Hrun. cbn [views set_views] in Hrun.
    destruct (Z.geb_spec (views d + 1) 100) as [Hge|_]; [lia|].
    by injection Hrun as _ <-.
  - intros Hge. rewrite (get_object_found _ _ _ _ _ Hget), Hp in Hrun.
    cbn [negb andb] in Hrun. cbn zeta in Hrun. cbn [views set_views] in Hrun.
    destruct (Z.geb_spec (views d + 1) 100) as [_|Hlt]; [|lia].
    destruct (author d) as [a|]; [|done].
    destruct (user_table st !! a) as [u|] eqn:Hu; [|done].
    injection Hrun as _ <-. by exists a, u.
  - reflexivity.
  - intros request2 st2. by apply after_fetch_table.
  - exact Hstale.
  - intros request2.
    assert (diary_table st' !! k = Some (set_views (views d + 1) d)) as Hk'
      by by rewrite Htable.
    rewrite (proj1 (Hstale request2 st' _ Hk')), lookup_insert_eq.
    f_equal. unfold set_views. cbn. f_equal. lia.
Qed.

(** C10.  A published entry without author whose count reaches 100 with
    this read: the read raises [AttributeError] at [diary.author.email]
    and the client gets a 500; the increment stays and no mail is sent.
    With an author whose row exists the read of a published entry always
    returns the entry. *)
Theorem published_read_without_author_fails st request s k d :
  get_by_slug (diary_table st) s = Ok (k, d) →
  is_published d = true →
  author d = None →
  100 ≤ views d + 1 →
  (DiaryDetailView_get_object request s st).1 = Raise AttributeError ∧
  status_code (DiaryDetailView_get request s st).1 = 500%nat ∧
  diary_table (DiaryDetailView_get request s st).2 = increment_views k (diary_table st) ∧
  outbox (DiaryDetailView_get request s st).2 = outbox st.
Proof.
  intros Hget Hp Ha Hv. unfold DiaryDetailView_get, m_bind.
  rewrite (get_object_found _ _ _ _ _ Hget), Hp, Ha. cbn [negb andb views set_views].
  destruct (Z.geb_spec (views d + 1) 100) as [Hge|Hlt]; [done|lia].
Qed.

(** The access rule of the read, apart from the missing-author failure. *)
Lemma read_refused st request s k d :
  get_by_slug (diary_table st) s = Ok (k, d) →
  is_published d = false →
  user_is (user request) (author d) = false →
  DiaryDetailView_get_object request s st = (Raise PermissionDenied, st).
Proof.
  intros Hget Hp Hu. by rewrite (get_object_found _ _ _ _ _ Hget), Hp, Hu.
Qed.

Lemma read_Ok_allowed st request s k d :
  get_by_slug (diary_table st) s = Ok (k, d) →
  is_Ok (DiaryDetailView_get_object request s st).1 = true →
  is_published d = true ∨ user_is (user request) (author d) = true.
Proof.
  intros Hget. rewrite (get_object_found _ _ _ _ _ Hget).
  destruct (is_published d); [by left|].
  destruct (user_is (user request) (author d)); [by right|done].
Qed.

Lemma read_Ok_result st request s k d r st1 :
  get_by_slug (diary_table st) s = Ok (k, d) →
  DiaryDetailView_get_object request s st = (Ok r, st1) →
  r = (k, if is_published d then set_views (views d + 1) d else d) ∧
  diary_table st1 = (if is_published d then increment_views k (diary_table st)
                     else diary_table st).
Proof.
  intros Hget. rewrite (get_object_found _ _ _ _ _ Hget). cbn zeta.
  destruct (is_published d); cbn [negb andb];
    repeat case_match; intros; simplify_eq; done.
Qed.

Lemma read_with_author_Ok st request s k d a u :
  get_by_slug (diary_table st) s = Ok (k, d) →
  author d = Some a → user_table st !! a = Some u →
  is_published d = true ∨ user_is (user request) (author d) = true →
  is_Ok (DiaryDetailView_get_object request s st).1 = true.
Proof.
  intros Hget Ha Hu Hallow. rewrite (get_object_found _ _ _ _ _ Hget).
  assert (negb (is_published d) && negb (user_is (user request) (author d)) = false)
    as -> by (destruct Hallow as [-> | ->]; [done|apply andb_false_r]).
  cbn zeta. rewrite Ha, Hu. by destruct (_ >=? _)%Z.
Qed.

End Reads.

(** ** Repeated reads of a published entry *)

Section RepeatedReads.
Context `{External}.

Lemma get_by_slug_increment_views db s k d :
  get_by_slug db s = Ok (k, d) →
  get_by_slug (increment_views k db) s = Ok (k, set_views (views d + 1) d).
Proof.
  intros Hget. pose proof (get_by_slug_lookup _ _ _ _ Hget) as [Hk Hs].
  apply get_by_slug_intro.
  - by apply increment_views_lookup.
  - done.
  - intros k' d' Hk' Hs'. destruct (decide (k' = k)) as [|Hne]; [done|].
    rewrite increment_views_lookup_ne in Hk' by done.
    by eapply get_by_slug_only.
Qed.

(** X21.  [n] reads of a published entry whose author's row exists raise
    the count by [n]; once the count is at 100, each of them sends a
    mail, and while it stays below 100 none does. *)
Lemma published_reads st request s k d a u n :
  get_by_slug (diary_table st) s = Ok (k, d) →
  is_published d = true →
  author d = Some a → user_table st !! a = Some u →
  get_by_slug (diary_table (reads n request s st)) s
    = Ok (k, set_views (views d + Z.of_nat n) d) ∧
  (100 ≤ views d + 1 →
     length (outbox (reads n request s st)) = (length (outbox st) + n)%nat) ∧
  (views d + Z.of_nat n < 100 → outbox (reads n request s st) = outbox st).
Proof.
  revert st d. induction n as [|n IH]; intros st d Hget Hp Ha Hu.
  - cbn [reads]. rewrite Z.add_0_r. split_and!; [by destruct d|lia|done].
  - cbn [reads]. unfold DiaryDetailView_get. rewrite m_bind_state by done.
    rewrite (get_object_found _ _ _ _ _ Hget), Hp, Ha, Hu. cbn [negb andb].
    pose proof (get_by_slug_increment_views _ _ _ _ Hget) as Hget'.
    cbn zeta. cbn [views set_views].
    destruct (Z.geb_spec (views d + 1) 100) as [Hge|Hlt]; cbn [snd].
    + destruct (IH (set_outbox (outbox st ++
                     [notification (set_views (views d + 1) d) (email u)])%list
                   (set_diary_table (increment_views k (diary_table st)) st))
                  (set_views (views d + 1) d)) as (IH1 & IH2 & _); [done..|].
      cbn [views set_views] in *. split_and!.
      * rewrite IH1. unfold set_views. cbn. do 3 f_equal. lia.
      * intros _. rewrite IH2 by lia. cbn. rewrite length_app. cbn. lia.
      * intros; lia.
    + destruct (IH (set_diary_table (increment_views k (diary_table st)) st)
                  (set_views (views d + 1) d)) as (IH1 & _ & IH3); [done..|].
      cbn [views set_views] in *. split_and!.
      * rewrite IH1. unfold set_views. cbn. do 3 f_equal. lia.
      * intros; lia.
      * intros Hsmall. rewrite IH3 by lia. done.
Qed.

End RepeatedReads.

(** *** The reads on the sample inputs *)

(** C1, as stated, fails: the author of an unpublished entry with 100
    views reads it, and a notification is sent. *)
Lemma unpublished_read_by_author_sends_mail :
  get_by_slug (diary_table draft_state) "note" = Ok (7%nat, draft) ∧
  is_published draft = false ∧
  outbox draft_state = [] ∧
  outbox (DiaryDetailView_get_object (H:=sample_external)
            (as_user 1 alice ∅) "note" draft_state).2
    = [notification (H:=sample_external) draft "alice@localhost"].
Proof. vm_compute. done. Qed.

Lemma unpublished_read_effects_witness :
  get_by_slug (diary_table draft_state) "note" = Ok (7%nat, draft) ∧
  is_published draft = false ∧
  diary_table (DiaryDetailView_get_object (H:=sample_external)
                 (as_user 2 bob ∅) "note" draft_state).2
    = diary_table draft_state.
Proof.
  split_and!; [vm_compute; reflexivity | reflexivity |].
  apply (unpublished_read_effects (H:=sample_external)
           draft_state (as_user 2 bob ∅) "note" 7%nat draft);
    [vm_compute; reflexivity | reflexivity].
Defined.

Lemma published_read_increments_and_notifies_witness :
  get_by_slug (diary_table popular_state) "story" = Ok (5%nat, popular) ∧
  is_published popular = true ∧
  (DiaryDetailView_get_object (H:=sample_external)
     (anonymous ∅) "story" popular_state).1 = Ok (5%nat, set_views 100 popular) ∧
  outbox (DiaryDetailView_get_object (H:=sample_external)
            (anonymous ∅) "story" popular_state).2
    = [mkMail "Уведомление" "<p>story</p>" "noreply@localhost" ["alice@localhost"]
              (Some "<p>story</p>")] ∧
  diary_table (DiaryDetailView_get_object_after_fetch (H:=sample_external)
                 (anonymous ∅) (5%nat, popular) story_state).2
    = {[ 5%nat := set_views 6 story ]}.
Proof.
  split_and!; [vm_compute; reflexivity | reflexivity | vm_compute; reflexivity | |].
  - destruct (published_read_increments_and_notifies (H:=sample_external)
                popular_state (anonymous ∅) "story" 5%nat popular
                (5%nat, set_views 100 popular)
                (DiaryDetailView_get_object (H:=sample_external)
                   (anonymous ∅) "story" popular_state).2)
      as (_ & _ & _ & _ & _ & _ & _ & Hmail & _);
      [vm_compute; reflexivity | reflexivity | vm_compute; reflexivity |].
    destruct (Hmail ltac:(vm_compute; discriminate)) as (a & u & Ha & Hu & Hout).
    injection Ha as <-. injection Hu as <-. exact Hout.
  - destruct (published_read_increments_and_notifies (H:=sample_external)
                popular_state (anonymous ∅) "story" 5%nat popular
                (5%nat, set_views 100 popular)
                (DiaryDetailView_get_object (H:=sample_external)
                   (anonymous ∅) "story" popular_state).2)
      as (_ & _ & _ & _ & _ & _ & _ & _ & _ & _ & Hstale & _);
      [vm_compute; reflexivity | reflexivity | vm_compute; reflexivity |].
    destruct (Hstale (anonymous ∅) story_state story eq_refl) as [Hrow _].
    rewrite Hrow. vm_compute. reflexivity.
Defined.

Lemma published_read_without_author_fails_witness :
  get_by_slug (diary_table orphan_state) "old" = Ok (4%nat, orphan) ∧
  is_published orphan = true ∧ author orphan = None ∧ 100 ≤ views orphan + 1 ∧
  (DiaryDetailView_get_object (H:=sample_external)
     (as_user 2 bob ∅) "old" orphan_state).1 = Raise AttributeError.
Proof.
  split_and!; [vm_compute; reflexivity | reflexivity | reflexivity | vm_compute; discriminate |].
  apply (published_read_without_author_fails (H:=sample_external)
           orphan_state (as_user 2 bob ∅) "old" 4%nat orphan);
    [vm_compute; reflexivity | reflexivity | reflexivity | vm_compute; discriminate].
Defined.

(** C2 on the failing input: the entry is published, so the claim has
    the read succeed for every requester; the code answers 500. *)
Theorem published_orphan_read_is_server_error :
  get_by_slug (diary_table orphan_state) "old" = Ok (4%nat, orphan) ∧
  is_published orphan = true ∧
  (DiaryDetailView_get (H:=sample_external) (anonymous ∅) "old" orphan_state).1
    = Raise AttributeError ∧
  status_code (DiaryDetailView_get (H:=sample_external) (anonymous ∅) "old" orphan_state).1
    = 500%nat.
Proof. vm_compute. done. Qed.

(** ** Saving an entry *)

Section Workflow.
Context `{External}.

(** The row [Diary.save] writes: the instance, with the slug filled in
    when it was empty. *)
Lemma Diary_save_update k d st :
  Diary_save (Some k, d) st =
    let d' := if truthy (slug d) then d
              else set_slug (Some (get_unique_slug (diary_table st) d)) d in
    (Ok (Some k, d'), set_diary_table (<[k:=d']> (diary_table st)) st).
Proof. reflexivity. Qed.

Lemma Diary_save_update_row k d st :
  ∃ d', Diary_save (Some k, d) st
          = (Ok (Some k, d'), set_diary_table (<[k:=d']> (diary_table st)) st) ∧
        status d' = status d ∧ is_published d' = is_published d ∧
        author d' = author d ∧ views d' = views d ∧
        title d' = title d ∧ content d' = content d ∧
        (truthy (slug d) = true → d' = d).
Proof.
  rewrite Diary_save_update. cbn zeta.
  destruct (truthy (slug d)); eexists; split_and!; done.
Qed.

(** ** Submitting for moderation *)

Lemma post_after_read st request s k d1 st1 :
  DiaryDetailView_get_object request s st = (Ok (k, d1), st1) →
  in_POST "publish" request = true →
  ∃ d', diary_table (DiaryDetailView_post request s st).2 = <[k:=d']> (diary_table st1) ∧
        status d' = "moderation" ∧ is_published d' = is_published d1.
Proof.
  intros Hread Hpost. unfold DiaryDetailView_post.
  rewrite (m_bind_Ok _ _ _ _ _ Hread), Hpost.
  destruct (Diary_save_update_row k (set_status "moderation" d1) st1)
    as (d' & Hsave & Hs & Hp & _).
  exists d'. split_and!; [|done|done].
  rewrite m_bind_state.
  - by rewrite (m_bind_Ok _ _ _ _ _ Hsave).
  - intros a st2. rewrite m_bind_state; [|done]. unfold m_lift. done.
Qed.

(** C4 (as amended).  A submit request goes through the access check of
    the detail read and no other: on an unpublished entry a requester
    who is not the author is refused and nothing changes; whenever the
    read succeeds the status becomes [moderation], whatever it was, and
    the published flag is kept; on a published entry whose author's row
    exists this holds for every requester. *)
Theorem submit_sets_moderation st request s k d :
  get_by_slug (diary_table st) s = Ok (k, d) →
  in_POST "publish" request = true →
  (is_published d = false → user_is (user request) (author d) = false →
     DiaryDetailView_post request s st = (Raise PermissionDenied, st)) ∧
  (is_Ok (DiaryDetailView_get_object request s st).1 = true →
     ∃ d', diary_table (DiaryDetailView_post request s st).2 !! k = Some d' ∧
           status d' = "moderation" ∧ is_published d' = is_published d) ∧
  (∀ a u, is_published d = true → author d = Some a → user_table st !! a = Some u →
     ∃ d', diary_table (DiaryDetailView_post request s st).2 !! k = Some d' ∧
           status d' = "moderation" ∧ is_published d' = true).
Proof.
  intros Hget Hpost.
  assert (is_Ok (DiaryDetailView_get_object request s st).1 = true →
     ∃ d', diary_table (DiaryDetailView_post request s st).2 !! k = Some d' ∧
           status d' = "moderation" ∧ is_published d' = is_published d) as Hok.
  { destruct (DiaryDetailView_get_object request s st) as [[[k1 d1]|e] st1] eqn:Hread;
      [intros _|done].
    assert (k1 = k ∧ is_published d1 = is_published d) as [-> Hpd].
    { destruct (read_Ok_result _ _ _ _ _ _ _ Hget Hread) as [[= -> ->] _].
      split; [done|]. by destruct (is_published d) eqn:Hpub. }
    destruct (post_after_read _ _ _ _ _ _ Hread Hpost) as (d' & -> & Hs & Hp).
    exists d'. rewrite lookup_insert_eq. split_and!; congruence. }
  split_and!; [|done|].
  - intros Hp Hu. unfold DiaryDetailView_post, m_bind.
    by rewrite (read_refused _ _ _ _ _ Hget Hp Hu).
  - intros a u Hp Ha Hu.
    destruct Hok as (d' & Hrow & Hs & Hpd); [eapply read_with_author_Ok; eauto|].
    exists d'. split_and!; congruence.
Qed.

(** ** The moderator's decision *)

Lemma has_perm_authenticated request perm :
  has_perm (user request) perm = true → ∃ uid u, user request = AuthUser uid u.
Proof. unfold has_perm. destruct (user request); [done|eauto]. Qed.

(** C5.  For a holder of the moderation permission and the entry the
    slug selects, in whatever status: approve writes status [published]
    and the flag true; reject writes status [rejected] and keeps the
    flag; the answer is the redirect to the moderation list. *)
Theorem moderation_action_effect st request s k d :
  has_perm (user request) "diary.can_moderate" = true →
  get_by_slug (diary_table st) s = Ok (k, d) →
  (DiaryModerationActionView_post request s st).1
    = Ok (HttpResponseRedirect "/moderation/") ∧
  (in_POST "approve" request = true →
     ∃ d', diary_table (DiaryModerationActionView_post request s st).2 !! k = Some d' ∧
           status d' = "published" ∧ is_published d' = true) ∧
  (in_POST "approve" request = false → in_POST "reject" request = true →
     ∃ d', diary_table (DiaryModerationActionView_post request s st).2 !! k = Some d' ∧
           status d' = "rejected" ∧ is_published d' = is_published d).
Proof.
  intros Hperm Hget.
  destruct (has_perm_authenticated _ _ Hperm) as (uid & u & Hu).
  unfold DiaryModerationActionView_post, LoginRequiredMixin, PermissionRequiredMixin.
  rewrite Hu, <- Hu, Hperm.
  rewrite (m_bind_Ok _ _ _ _ _ (eq_trans (get_object_run _ _ _) (f_equal (., st) Hget))).
  destruct (in_POST "approve" request).
  - destruct (Diary_save_update_row k (set_is_published true (set_status "published" d)) st)
      as (d' & Hsave & Hs & Hp & _).
    unfold m_bind, m_ret. rewrite Hsave. cbn.
    split_and!; [done| |done]. intros _. exists d'. by rewrite lookup_insert_eq.
  - destruct (in_POST "reject" request).
    + destruct (Diary_save_update_row k (set_status "rejected" d) st)
        as (d' & Hsave & Hs & Hp & _).
      unfold m_bind, m_ret. rewrite Hsave. cbn.
      split_and!; [done|done|]. intros _ _. exists d'. by rewrite lookup_insert_eq.
    + unfold m_bind, m_ret. cbn. split_and!; done.
Qed.

End Workflow.

(** *** The workflow on the sample inputs *)

(** C4, as stated, fails: Bob, who is not the author, and an anonymous
    client each submit Alice's published entry, and its status becomes
    [moderation]. *)
Lemma submit_by_non_owner :
  author story = Some 1%nat ∧
  user (as_user 2 bob publish_form) = AuthUser 2 bob ∧
  status <$> diary_table (DiaryDetailView_post (H:=sample_external)
                            (as_user 2 bob publish_form) "story" story_state).2 !! 5%nat
    = Some "moderation" ∧
  status <$> diary_table (DiaryDetailView_post (H:=sample_external)
                            (anonymous publish_form) "story" story_state).2 !! 5%nat
    = Some "moderation".
Proof. vm_compute. done. Qed.

Lemma submit_sets_moderation_witness :
  get_by_slug (diary_table draft_state) "note" = Ok (7%nat, draft) ∧
  in_POST "publish" (as_user 2 bob publish_form) = true ∧
  DiaryDetailView_post (H:=sample_external) (as_user 2 bob publish_form) "note" draft_state
    = (Raise PermissionDenied, draft_state).
Proof.
  split_and!; [vm_compute; reflexivity | vm_compute; reflexivity |].
  destruct (submit_sets_moderation (H:=sample_external)
              draft_state (as_user 2 bob publish_form) "note" 7%nat draft)
    as [Hrefused _]; [vm_compute; reflexivity | vm_compute; reflexivity |].
  apply Hrefused; vm_compute; reflexivity.
Defined.

Lemma moderation_action_effect_witness :
  has_perm (user (as_user 3 moderator approve_form)) "diary.can_moderate" = true ∧
  get_by_slug (diary_table draft_state) "note" = Ok (7%nat, draft) ∧
  status draft = "no_published" ∧
  (DiaryModerationActionView_post (H:=sample_external)
     (as_user 3 moderator approve_form) "note" draft_state).1
    = Ok (HttpResponseRedirect "/moderation/").
Proof.
  split_and!; [vm_compute; reflexivity | vm_compute; reflexivity | reflexivity |].
  apply (moderation_action_effect (H:=sample_external)
           draft_state (as_user 3 moderator approve_form) "note" 7%nat draft);
    vm_compute; reflexivity.
Defined.

(** ** Row invariants kept by every operation

    A property of rows that looks only at the status and the flag, and
    that holds of a freshly created, a submitted, an approved and a
    rejected row, holds of every row after any operation if it held
    before. *)

Section Invariant.
Context `{External}.
Variable P : Diary → Prop.
Hypothesis P_flags : ∀ d d',
  status d' = status d → is_published d' = is_published d → P d → P d'.
Hypothesis P_created : ∀ d, status d = "no_published" → is_published d = false → P d.
Hypothesis P_submitted : ∀ d, status d = "moderation" → P d.
Hypothesis P_approved : ∀ d, status d = "published" → is_published d = true → P d.
Hypothesis P_rejected : ∀ d, status d = "rejected" → P d.

Lemma Diary_save_row o st :
  ∃ k d', Diary_save o st
            = (Ok (Some k, d'), set_diary_table (<[k:=d']> (diary_table st)) st) ∧
          status d' = status o.2 ∧ is_published d' = is_published o.2.
Proof.
  destruct o as [[k|] d]; unfold Diary_save; cbn;
    destruct (truthy (slug d)); eexists _, _; split_and!; done.
Qed.

Lemma save_keeps o st :
  P o.2 → every_entry P st → every_entry P (Diary_save o st).2.
Proof.
  intros Hd Hall. destruct (Diary_save_row o st) as (k & d' & -> & Hs & Hp).
  apply map_Forall_insert_2; [|done]. by eapply P_flags.
Qed.

Lemma increment_keeps k st :
  every_entry P st →
  every_entry P (set_diary_table (increment_views k (diary_table st)) st).
Proof.
  intros Hall i d'. cbn. unfold increment_views. rewrite lookup_alter_Some.
  intros [(_ & d & Hd & ->)|[_ Hd]]; [|by eapply Hall].
  eapply P_flags; [| |by eapply Hall]; done.
Qed.

Lemma read_keeps request s st :
  every_entry P st → every_entry P (DiaryDetailView_get_object request s st).2.
Proof.
  intros Hall. destruct (get_by_slug (diary_table st) s) as [[k d]|e] eqn:Hget.
  - rewrite (get_object_found _ _ _ _ _ Hget). cbn zeta.
    pose proof (increment_keeps k st Hall).
    repeat case_match; done.
  - by rewrite (get_object_not_found _ _ _ _ Hget).
Qed.

Lemma detail_get_keeps request s st :
  every_entry P st → every_entry P (DiaryDetailView_get request s st).2.
Proof.
  intros Hall. unfold DiaryDetailView_get. rewrite m_bind_state; [|done].
  by apply read_keeps.
Qed.

Lemma detail_post_keeps request s st :
  every_entry P st → every_entry P (DiaryDetailView_post request s st).2.
Proof.
  intros Hall. pose proof (read_keeps request s st Hall) as Hread.
  unfold DiaryDetailView_post.
  destruct (DiaryDetailView_get_object request s st) as [[[k d]|e] st1] eqn:Hrun.
  - rewrite (m_bind_Ok _ _ _ _ _ Hrun). cbn in Hread.
    rewrite m_bind_state; [|intros; by rewrite m_bind_state].
    destruct (in_POST "publish" request); [|done].
    rewrite m_bind_state; [|done].
    apply save_keeps; [|done]. by apply P_submitted.
  - by rewrite (m_bind_Raise _ _ _ _ _ Hrun).
Qed.

Lemma moderation_action_keeps request s st :
  every_entry P st → every_entry P (DiaryModerationActionView_post request s st).2.
Proof.
  intros Hall.
  unfold DiaryModerationActionView_post, LoginRequiredMixin, PermissionRequiredMixin.
  destruct (user request); [done|].
  destruct (has_perm _ _); [|done].
  unfold m_bind at 1. rewrite get_object_run.
  destruct (get_by_slug (diary_table st) s) as [[k d]|e]; [|done].
  rewrite m_bind_state; [|done].
  destruct (in_POST "approve" request); [|destruct (in_POST "reject" request)].
  - rewrite m_bind_state; [|done]. apply save_keeps; [|done]. by apply P_approved.
  - rewrite m_bind_state; [|done]. apply save_keeps; [|done]. by apply P_rejected.
  - done.
Qed.

Lemma form_save_keeps commit o f st :
  P o.2 → every_entry P st → every_entry P (DiaryForm_save commit o f st).2.
Proof.
  intros Hd Hall. unfold DiaryForm_save. destruct commit; [|done].
  apply save_keeps; [|done]. cbn [snd].
  destruct (truthy _); eapply P_flags; try exact Hd; done.
Qed.

Lemma create_keeps request st :
  every_entry P st → every_entry P (DiaryCreateView_post request st).2.
Proof.
  intros Hall. unfold DiaryCreateView_post, LoginRequiredMixin.
  destruct (user request) as [|uid u]; [done|].
  destruct (DiaryForm_clean request) as [f|e]; [|done].
  unfold DiaryCreateView_form_valid, DiaryForm_save at 1. cbn [snd fst].
  rewrite m_bind_ret.
  match goal with |- context [Diary_save ?o] =>
    destruct (Diary_save_row o st) as (k & d1 & Hsave & Hs & Hp);
    rewrite (m_bind_Ok _ _ _ _ _ Hsave) end.
  rewrite m_bind_state; [|done].
  assert (P d1) as Hd1.
  { apply P_created; [rewrite Hs|rewrite Hp]; by destruct (truthy _). }
  apply form_save_keeps; [done|]. by apply map_Forall_insert_2.
Qed.

Lemma owned_queryset_lookup request st s k d :
  get_by_slug (owned_queryset request st) s = Ok (k, d) →
  diary_table st !! k = Some d ∧ slug d = Some s ∧ user_is (user request) (author d) = true.
Proof.
  intros Hget. apply get_by_slug_lookup in Hget as [Hk Hs].
  unfold owned_queryset, filter_author in Hk. destruct (user request) as [|uid u]; [done|].
  apply map_lookup_filter_Some in Hk as [Hk Ha]. cbn in Ha.
  split_and!; [done|done|]. rewrite Ha. cbn. by apply bool_decide_eq_true.
Qed.

Lemma update_keeps request s st :
  every_entry P st → every_entry P (DiaryUpdateView_post request s st).2.
Proof.
  intros Hall. unfold DiaryUpdateView_post, LoginRequiredMixin.
  destruct (user request) as [|uid u] eqn:Huser; [done|].
  unfold m_bind at 1. rewrite get_object_run. unfold DiaryUpdateView_get_queryset.
  destruct (get_by_slug (owned_queryset request st) s) as [[k d]|e] eqn:Hget; [|done].
  apply owned_queryset_lookup in Hget as (Hk & _).
  destruct (DiaryForm_clean request) as [f|e]; [|done].
  rewrite m_bind_state; [|intros; by rewrite m_bind_state].
  apply form_save_keeps; [|done]. eapply P_flags; [| |by eapply Hall]; done.
Qed.

Lemma delete_keeps request s st :
  every_entry P st → every_entry P (DiaryDeleteView_post request s st).2.
Proof.
  intros Hall. unfold DiaryDeleteView_post, LoginRequiredMixin.
  destruct (user request) as [|uid u] eqn:Huser; [done|].
  unfold m_bind at 1. rewrite get_object_run. unfold DiaryDeleteView_get_queryset.
  destruct (get_by_slug (owned_queryset request st) s) as [[k d]|e] eqn:Hget; [|done].
  rewrite m_bind_state; [|done]. by apply map_Forall_delete.
Qed.

Lemma register_keeps request code st :
  diary_table (RegisterView_post request code st).2 = diary_table st.
Proof.
  unfold RegisterView_post.
  destruct (UserRegisterForm_full_clean st request) as [cleaned [|err errs]]; [|done].
  unfold RegisterView_form_valid, m_bind, m_lift, User_save, send_mail, m_modify, m_ret.
  by destruct (cleaned !! "password1").
Qed.

Lemma user_delete_keeps uid st :
  every_entry P st → every_entry P (User_delete uid st).
Proof.
  intros Hall k d'. unfold User_delete. cbn. rewrite lookup_fmap_Some.
  intros (d & <- & Hd). eapply P_flags; [| |by eapply Hall]; by case_bool_decide.
Qed.

Lemma exec_keeps op st : every_entry P st → every_entry P (exec op st).
Proof.
  intros Hall. destruct op; cbn [exec].
  - by apply detail_get_keeps.
  - by apply detail_post_keeps.
  - by apply moderation_action_keeps.
  - by apply create_keeps.
  - by apply update_keeps.
  - by apply delete_keeps.
  - unfold every_entry. by rewrite register_keeps.
  - by apply user_delete_keeps.
Qed.

End Invariant.

(** ** The flag and the status *)

Lemma workflow_row_exec `{External} op st :
  every_entry workflow_row st → every_entry workflow_row (exec op st).
Proof.
  apply exec_keeps; unfold workflow_row.
  - intros d d' -> ->. done.
  - intros d -> ->. split; [discriminate|discriminate].
  - intros d ->. split; [discriminate|auto].
  - intros d -> ->. auto.
  - intros d ->. split; [discriminate|auto].
Qed.

(** C6 (as amended).  Every operation keeps, for every entry: status
    [published] implies the published flag, and the published flag
    implies that the status is [published], [moderation] or [rejected]. *)
Theorem workflow_invariant_preserved `{External} op st :
  every_entry workflow_row st → every_entry workflow_row (exec op st).
Proof. apply workflow_row_exec. Qed.

Lemma reachable_workflow_row `{External} st :
  reachable st → every_entry workflow_row st.
Proof.
  induction 1 as [day|op st _ IH].
  - apply map_Forall_empty.
  - by apply workflow_row_exec.
Qed.

(** C6, as stated, fails: a moderator rejects a published entry; the
    flag stays true and the status is [rejected]. *)
Lemma reject_breaks_flag_implies_status :
  every_entry flag_implies_status story_state ∧
  ¬ every_entry flag_implies_status
      (exec (H:=sample_external)
         (OpModerationAction (as_user 3 moderator reject_form) "story") story_state).
Proof.
  split.
  - apply map_Forall_singleton. by intros _.
  - intros Hall.
    assert (diary_table (exec (H:=sample_external)
              (OpModerationAction (as_user 3 moderator reject_form) "story") story_state)
              !! 5%nat = Some (set_status "rejected" story)) as Hrow
      by (vm_compute; reflexivity).
    specialize (Hall _ _ Hrow eq_refl). discriminate Hall.
Qed.

Lemma workflow_invariant_preserved_witness :
  every_entry workflow_row story_state ∧
  every_entry workflow_row
    (exec (H:=sample_external)
       (OpModerationAction (as_user 3 moderator reject_form) "story") story_state).
Proof.
  assert (every_entry workflow_row story_state) as Hinv.
  { apply map_Forall_singleton. split; [reflexivity | intros _; by left]. }
  split; [exact Hinv|].
  apply (workflow_invariant_preserved (H:=sample_external)
           (OpModerationAction (as_user 3 moderator reject_form) "story") story_state).
  exact Hinv.
Defined.

(** ** Slugs of created entries *)

Section Slugs.
Context `{External}.

Lemma truthy_Some s : s ≠ "" → truthy (Some s) = true.
Proof.
  intros Hs. unfold truthy. destruct (String.eqb_spec s ""); [done|reflexivity].
Qed.

Lemma qs_get_two {A} (q : gmap nat A) k1 k2 d1 d2 :
  q !! k1 = Some d1 → q !! k2 = Some d2 → k1 ≠ k2 →
  qs_get q = Raise MultipleObjectsReturned.
Proof.
  intros H1 H2 Hne. destruct (qs_get q) as [[k d]|e] eqn:Hq.
  - apply qs_get_Ok in Hq as ->.
    apply lookup_singleton_Some in H1 as [<- _].
    apply lookup_singleton_Some in H2 as [<- _]. done.
  - unfold qs_get in Hq. destruct (map_to_list q) as [|x [|y l]] eqn:Hl.
    + apply map_to_list_empty_iff in Hl as ->. by rewrite lookup_empty in H1.
    + done.
    + congruence.
Qed.

(** What [DiaryCreateView.form_valid] leaves in the table when the
    slugified title is not empty: one new row, whose slug is the
    slugified title as it is. *)
Lemma create_effect st request f :
  slugify (form_title f) ≠ "" →
  ∃ k d,
    diary_table st !! k = None ∧
    diary_table (DiaryCreateView_form_valid request f st).2 = <[k:=d]> (diary_table st) ∧
    slug d = Some (slugify (form_title f)) ∧
    title d = form_title f ∧
    status d = "no_published" ∧ is_published d = false ∧ views d = 0.
Proof.
  intros Hs. pose proof (truthy_Some _ Hs) as Ht.
  exists (fresh (dom (diary_table st))). eexists. split.
  { apply not_elem_of_dom, is_fresh. }
  unfold DiaryCreateView_form_valid, DiaryForm_save, Diary_save, m_bind, m_ret.
  cbn -[truthy]. change (truthy None) with false. cbn -[truthy].
  rewrite Ht. cbn -[truthy]. rewrite Ht. cbn -[truthy]. rewrite ?Ht. cbn -[truthy].
  rewrite insert_insert_eq. split_and!; reflexivity.
Qed.

(** C7 on the failing inputs: two entries created through the form with
    the same title, whose slugified form is not empty, are two rows with
    one slug; the detail lookup of that slug then raises
    [MultipleObjectsReturned]. *)
Theorem create_twice_same_slug st request f :
  slugify (form_title f) ≠ "" →
  ∃ k1 k2 d1 d2,
    k1 ≠ k2 ∧
    diary_table (DiaryCreateView_form_valid request f
                   (DiaryCreateView_form_valid request f st).2).2 !! k1 = Some d1 ∧
    diary_table (DiaryCreateView_form_valid request f
                   (DiaryCreateView_form_valid request f st).2).2 !! k2 = Some d2 ∧
    slug d1 = Some (slugify (form_title f)) ∧
    slug d2 = Some (slugify (form_title f)) ∧
    get_by_slug (diary_table (DiaryCreateView_form_valid request f
                   (DiaryCreateView_form_valid request f st).2).2) (slugify (form_title f))
      = Raise MultipleObjectsReturned.
Proof.
  intros Hs.
  destruct (create_effect st request f Hs) as (k1 & d1 & Hk1 & Ht1 & Hs1 & _).
  destruct (create_effect (DiaryCreateView_form_valid request f st).2 request f Hs)
    as (k2 & d2 & Hk2 & Ht2 & Hs2 & _).
  rewrite Ht2, Ht1. rewrite Ht1 in Hk2.
  assert (k1 ≠ k2) as Hne.
  { intros ->. by rewrite lookup_insert_eq in Hk2. }
  assert (<[k2:=d2]> (<[k1:=d1]> (diary_table st)) !! k1 = Some d1) as Hl1.
  { rewrite lookup_insert_ne by done. apply lookup_insert_eq. }
  assert (<[k2:=d2]> (<[k1:=d1]> (diary_table st)) !! k2 = Some d2) as Hl2.
  { apply lookup_insert_eq. }
  exists k1, k2, d1, d2. split_and!; try done.
  unfold get_by_slug.
  rewrite (qs_get_two _ k1 k2 d1 d2); [done| | |done]; by apply filter_slug_lookup.
Qed.

End Slugs.

Lemma create_twice_same_slug_witness :
  slugify (External:=sample_external) "abc" ≠ "" ∧
  get_by_slug
    (diary_table
       (DiaryCreateView_form_valid (H:=sample_external) (as_user 1 alice ∅)
          (mkDiaryFormData "abc" "text" None)
          (DiaryCreateView_form_valid (H:=sample_external) (as_user 1 alice ∅)
             (mkDiaryFormData "abc" "text" None) (empty_state 0)).2).2)
    "abc"
  = Raise MultipleObjectsReturned.
Proof.
  split; [discriminate|].
  destruct (create_twice_same_slug (H:=sample_external) (empty_state 0) (as_user 1 alice ∅)
              (mkDiaryFormData "abc" "text" None))
    as (k1 & k2 & d1 & d2 & _ & _ & _ & _ & _ & Hget); [discriminate | exact Hget].
Defined.

(** ** [get_unique_slug]: the loop ends within the fuel, at a free slug *)

Section UniqueSlug.
Context `{External}.

Lemma candidate_inj base : Inj (=) (=) (candidate base).
Proof.
  assert (∀ i, base ≠ base +:+ "-" +:+ pretty (S i)) as Hbase.
  { intros i Heq. induction base as [|a b IH]; [done|]. injection Heq. done. }
  intros [|i] [|j] Heq; cbn in Heq.
  - done.
  - by apply Hbase in Heq.
  - symmetry in Heq. by apply Hbase in Heq.
  - apply (inj (String.app base)) in Heq.
    apply (inj (String.app "-")) in Heq. by apply (inj pretty) in Heq.
Qed.

Lemma slug_taken db s :
  qs_exists (filter_slug s db) = true ↔ ∃ k d, db !! k = Some d ∧ slug d = Some s.
Proof.
  split.
  - intros Hex. destruct (map_to_list (filter_slug s db)) as [|[k d] l] eqn:Hl.
    + unfold qs_exists in Hex. by rewrite Hl in Hex.
    + exists k, d. apply filter_slug_lookup, elem_of_map_to_list. rewrite Hl. left.
  - intros (k & d & Hk & Hs). apply not_false_iff_true. rewrite qs_exists_false.
    intros Hempty. assert (filter_slug s db !! k = Some d) as Hf by by apply filter_slug_lookup.
    by rewrite Hempty, lookup_empty in Hf.
Qed.

(** Among the first [size db + 1] candidates one is free: they are pairwise
    different and the table holds [size db] slugs at most. *)
Lemma candidate_free db base :
  ∃ j, (j ≤ size db)%nat ∧ qs_exists (filter_slug (candidate base j) db) = false.
Proof.
  set (n := size db).
  destruct (decide (Exists (λ j, qs_exists (filter_slug (candidate base j) db) = false)
                      (seq 0 (S n)))) as [Hex|Hall].
  - apply Exists_exists in Hex as (j & Hj & Hfree). apply elem_of_seq in Hj.
    exists j. split; [lia|done].
  - exfalso. apply not_Exists_Forall in Hall; [|intros ?; apply _].
    rewrite Forall_forall in Hall.
    assert ((Some ∘ candidate base) <$> seq 0 (S n)
              ⊆+ (slug ∘ snd) <$> map_to_list db) as Hsub.
    { apply NoDup_submseteq.
      - apply NoDup_fmap_2; [|apply NoDup_seq].
        intros i j Hij. cbn in Hij. injection Hij. apply candidate_inj.
      - intros x (j & -> & Hj)%list_elem_of_fmap.
        specialize (Hall j Hj). cbn in Hall. apply not_false_is_true in Hall.
        apply slug_taken in Hall as (k & d & Hk & Hs).
        apply list_elem_of_fmap. exists (k, d). split; [cbn; congruence|].
        by apply elem_of_map_to_list. }
    apply submseteq_length in Hsub.
    rewrite !length_fmap, length_seq, length_map_to_list in Hsub. lia.
Qed.

Lemma get_unique_slug_loop_free db base fuel : ∀ i j,
  (j < fuel)%nat →
  qs_exists (filter_slug (candidate base (i + j)) db) = false →
  qs_exists (filter_slug
               (get_unique_slug_loop fuel db base (candidate base i) (S i)) db) = false.
Proof.
  induction fuel as [|fuel IH]; intros i j Hj Hfree; [lia|].
  cbn [get_unique_slug_loop].
  destruct (qs_exists (filter_slug (candidate base i) db)) eqn:Htaken; [|done].
  destruct j as [|j].
  - rewrite Nat.add_0_r in Hfree. congruence.
  - apply (IH (S i) j); [lia|]. by replace (S i + j)%nat with (i + S j)%nat by lia.
Qed.

(** Once the loop has stopped at a free slug, more fuel changes nothing. *)
Lemma get_unique_slug_loop_more_fuel db base fuel : ∀ extra i,
  qs_exists (filter_slug
               (get_unique_slug_loop fuel db base (candidate base i) (S i)) db) = false →
  get_unique_slug_loop (fuel + extra) db base (candidate base i) (S i)
    = get_unique_slug_loop fuel db base (candidate base i) (S i).
Proof.
  induction fuel as [|fuel IH]; intros extra i Hfree.
  - cbn in Hfree. destruct extra as [|extra]; [done|]. cbn. by rewrite Hfree.
  - cbn [get_unique_slug_loop Nat.add] in *.
    destruct (qs_exists (filter_slug (candidate base i) db)); [|done].
    by apply (IH extra (S i)).
Qed.

(** [get_unique_slug] returns a slug that no row has. *)
Lemma get_unique_slug_fresh db d :
  qs_exists (filter_slug (get_unique_slug db d) db) = false.
Proof.
  unfold get_unique_slug.
  destruct (candidate_free db (slugify (title d))) as (j & Hj & Hfree).
  apply (get_unique_slug_loop_free db _ (S (size db)) 0%nat j); [lia|done].
Qed.

Lemma get_unique_slug_enough_fuel db d extra :
  get_unique_slug_loop (S (size db) + extra) db
    (slugify (title d)) (slugify (title d)) 1%nat
  = get_unique_slug db d.
Proof.
  apply (get_unique_slug_loop_more_fuel db _ (S (size db)) extra 0%nat).
  apply get_unique_slug_fresh.
Qed.

(** A row saved with an empty slug gets one that no other row has. *)
Lemma Diary_save_fresh_slug pk d st k d' st' :
  truthy (slug d) = false →
  Diary_save (pk, d) st = (Ok (k, d'), st') →
  ∃ s, slug d' = Some s ∧
       ∀ k0 d0, diary_table st !! k0 = Some d0 → slug d0 ≠ Some s.
Proof.
  intros Hempty. unfold Diary_save. cbn [fst snd]. rewrite Hempty.
  pose proof (get_unique_slug_fresh (diary_table st) d) as Hfree.
  exists (get_unique_slug (diary_table st) d). split.
  - destruct pk; simplify_eq; done.
  - intros k0 d0 Hk0 Hs0. apply not_true_iff_false in Hfree. apply Hfree.
    apply slug_taken. eauto.
Qed.

End UniqueSlug.

(** ** Registration *)

Section Registration.
Context `{External}.

(** None of the three fields is called [password], so [_clean_fields]
    finds no [clean_<name>] method to run. *)
Lemma register_form_runs_no_method name :
  name ∈ UserRegisterForm_fields.*1 →
  getattr ("clean_" +:+ name) UserRegisterForm_methods = None.
Proof.
  cbn. rewrite !elem_of_cons, elem_of_nil.
  intros [->|[->|[->|[]]]]; reflexivity.
Qed.

Lemma register_form_clean request e p1 p2 :
  EmailField_clean (POST request !! "email") = Ok e →
  CharField_clean None (POST request !! "password1") = Ok p1 →
  CharField_clean None (POST request !! "password2") = Ok p2 →
  clean_fields UserRegisterForm_fields UserRegisterForm_methods (POST request) ∅ []
    = (<["password2":=p2]> (<["password1":=p1]> (<["email":=e]> ∅)), []).
Proof.
  intros He H1 H2. unfold UserRegisterForm_fields. cbn [clean_fields].
  rewrite He, H1, H2.
  by rewrite !register_form_runs_no_method by (cbn; set_solver).
Qed.

(** C8 on the failing inputs: every field passes its own cleaning, the
    two passwords differ and the address is new; the form is valid, the
    account is created with the first password and the client is sent
    to the login page. *)
Theorem register_with_mismatched_passwords st request code e p1 p2 :
  EmailField_clean (POST request !! "email") = Ok e →
  CharField_clean None (POST request !! "password1") = Ok p1 →
  CharField_clean None (POST request !! "password2") = Ok p2 →
  p1 ≠ p2 →
  (∀ k u, user_table st !! k = Some u → email u ≠ e) →
  (RegisterView_post request code st).1 = Ok (HttpResponseRedirect "/users/login/") ∧
  ∃ k u,
    user_table st !! k = None ∧
    user_table (RegisterView_post request code st).2 !! k = Some u ∧
    email u = e ∧ password u = make_password p1 ∧
    is_active u = false ∧ verification_code u = Some code.
Proof.
  intros He H1 H2 Hne Hnew.
  unfold RegisterView_post, UserRegisterForm_full_clean.
  rewrite (register_form_clean _ _ _ _ He H1 H2).
  unfold validate_unique_email.
  rewrite lookup_insert_ne, lookup_insert_ne, lookup_insert_eq by done.
  assert (qs_exists (filter (λ ku, email ku.2 = e) (user_table st)) = false) as ->.
  { apply qs_exists_false, map_empty. intros k. apply map_lookup_filter_None.
    right. intros u Hk. by apply Hnew in Hk. }
  cbn [app].
  unfold RegisterView_form_valid, m_bind, m_lift, m_ret, send_mail, m_modify, User_save.
  rewrite lookup_insert_ne, lookup_insert_eq by done.
  rewrite lookup_insert_ne, lookup_insert_ne, lookup_insert_eq by done.
  cbn. split; [done|].
  eexists (fresh (dom (user_table st))), _. split_and!.
  - apply not_elem_of_dom, is_fresh.
  - rewrite insert_insert_eq. apply lookup_insert_eq.
  - done.
  - done.
  - done.
  - done.
Qed.

End Registration.

Lemma register_with_mismatched_passwords_witness :
  "secret" ≠ "typo" ∧
  (RegisterView_post (H:=sample_external)
     (anonymous {[ "email" := "carol@localhost";
                   "password1" := "secret"; "password2" := "typo" ]})
     "0123456789abcdef" (empty_state 0)).1
  = Ok (HttpResponseRedirect "/users/login/").
Proof.
  split; [discriminate|].
  apply (register_with_mismatched_passwords (H:=sample_external) (empty_state 0)
           (anonymous {[ "email" := "carol@localhost";
                         "password1" := "secret"; "password2" := "typo" ]})
           "0123456789abcdef" "carol@localhost" "secret" "typo");
    [vm_compute; reflexivity | vm_compute; reflexivity | vm_compute; reflexivity
    | discriminate | intros k u Hk; cbn in Hk; by rewrite lookup_empty in Hk].
Defined.

(** [clean_password] itself refuses two different non-empty passwords;
    it is the dispatch by field name that never reaches it. *)
Lemma clean_password_rejects (cleaned_data : gmap string string) p1 p2 :
  cleaned_data !! "password1" = Some p1 →
  cleaned_data !! "password2" = Some p2 →
  p1 ≠ "" → p2 ≠ "" → p1 ≠ p2 →
  clean_password cleaned_data = Raise (ValidationError "Пароли не совпадают").
Proof.
  intros H1 H2 Hn1 Hn2 Hne. unfold clean_password. rewrite H1, H2.
  rewrite !truthy_Some by done. rewrite bool_decide_eq_false_2; [done|congruence].
Qed.

(** ** Update and delete of another user's entry *)

Section Ownership.
Context `{External}.

Lemma owned_queryset_foreign st request s k d :
  get_by_slug (diary_table st) s = Ok (k, d) →
  user_is (user request) (author d) = false →
  get_by_slug (owned_queryset request st) s = Raise Http404.
Proof.
  intros Hget Hu. apply get_by_slug_Http404, map_empty. intros i.
  destruct (filter_slug s (owned_queryset request st) !! i) as [d'|] eqn:Hi; [|done].
  apply filter_slug_lookup in Hi as [Hi Hs]. unfold owned_queryset in Hi.
  destruct (user request) as [|uid u]; [by rewrite lookup_empty in Hi|].
  apply map_lookup_filter_Some in Hi as [Hi Ha]. cbn in Ha.
  pose proof (get_by_slug_only _ _ _ _ _ _ Hget Hi Hs) as ->.
  apply get_by_slug_lookup in Hget as [Hk _]. simplify_eq.
  cbn in Hu. rewrite Ha in Hu. by rewrite bool_decide_eq_true_2 in Hu.
Qed.

(** C9 (as amended).  When the entry the slug names has another author,
    an update or delete request changes nothing; an authenticated
    requester gets [Http404], because the entry is outside the query set
    of the view, and an anonymous one is sent to the login page. *)
Theorem update_delete_foreign_entry st request s k d :
  get_by_slug (diary_table st) s = Ok (k, d) →
  user_is (user request) (author d) = false →
  let answer := match user request with
                | AnonymousUser => Ok (HttpResponseRedirect LOGIN_URL)
                | AuthUser _ _ => Raise Http404
                end in
  DiaryUpdateView_post request s st = (answer, st) ∧
  DiaryDeleteView_post request s st = (answer, st) ∧
  (∀ uid u, user request = AuthUser uid u →
     status_code (DiaryUpdateView_post request s st).1 = 404%nat ∧
     status_code (DiaryDeleteView_post request s st).1 = 404%nat).
Proof.
  intros Hget Hu. pose proof (owned_queryset_foreign _ _ _ _ _ Hget Hu) as H404.
  assert (DiaryUpdateView_post request s st
          = (match user request with
             | AnonymousUser => Ok (HttpResponseRedirect LOGIN_URL)
             | AuthUser _ _ => Raise Http404
             end, st)) as Hupd.
  { unfold DiaryUpdateView_post, LoginRequiredMixin, DiaryUpdateView_get_queryset.
    destruct (user request) eqn:Huser; [done|].
    unfold m_bind. by rewrite get_object_run, H404. }
  assert (DiaryDeleteView_post request s st
          = (match user request with
             | AnonymousUser => Ok (HttpResponseRedirect LOGIN_URL)
             | AuthUser _ _ => Raise Http404
             end, st)) as Hdel.
  { unfold DiaryDeleteView_post, LoginRequiredMixin, DiaryDeleteView_get_queryset.
    destruct (user request) eqn:Huser; [done|].
    unfold m_bind. by rewrite get_object_run, H404. }
  cbn zeta. split_and!; [done|done|].
  intros uid u Huser. rewrite Hupd, Hdel, Huser. done.
Qed.

End Ownership.

(** C9, as stated, fails: Bob's update and delete requests on Alice's
    entry are answered with 404, not with 403. *)
Lemma foreign_update_is_not_found :
  get_by_slug (diary_table draft_state) "note" = Ok (7%nat, draft) ∧
  author draft = Some 1%nat ∧
  (DiaryUpdateView_post (H:=sample_external) (as_user 2 bob edit_form) "note" draft_state).1
    = Raise Http404 ∧
  (DiaryDeleteView_post (H:=sample_external) (as_user 2 bob ∅) "note" draft_state).1
    = Raise Http404 ∧
  status_code (DiaryUpdateView_post (H:=sample_external)
                 (as_user 2 bob edit_form) "note" draft_state).1 = 404%nat ∧
  status_code (Raise PermissionDenied) = 403%nat.
Proof. vm_compute. done. Qed.

Lemma update_delete_foreign_entry_witness :
  get_by_slug (diary_table draft_state) "note" = Ok (7%nat, draft) ∧
  user_is (user (as_user 2 bob edit_form)) (author draft) = false ∧
  DiaryUpdateView_post (H:=sample_external) (as_user 2 bob edit_form) "note" draft_state
    = (Raise Http404, draft_state).
Proof.
  split_and!; [vm_compute; reflexivity | vm_compute; reflexivity |].
  apply (update_delete_foreign_entry (H:=sample_external)
           draft_state (as_user 2 bob edit_form) "note" 7%nat draft);
    vm_compute; reflexivity.
Defined.

(** * Further properties *)

(** ** The suffix search of [get_unique_slug] *)

Section SuffixSearch.
Context `{External}.

Lemma first_free_candidate db base n :
  (∀ i, (i < n)%nat → qs_exists (filter_slug (candidate base i) db) = true) ∨
  (∃ j, (j < n)%nat ∧ qs_exists (filter_slug (candidate base j) db) = false ∧
        ∀ i, (i < j)%nat → qs_exists (filter_slug (candidate base i) db) = true).
Proof.
  induction n as [|n [IH|(j & Hj & Hfree & Hbelow)]].
  - left. intros; lia.
  - destruct (qs_exists (filter_slug (candidate base n) db)) eqn:Hn.
    + left. intros i Hi. destruct (decide (i = n)) as [->|]; [done|]. apply IH. lia.
    + right. exists n. split_and!; [lia|done|done].
  - right. exists j. split_and!; [lia|done|done].
Qed.

Lemma get_unique_slug_loop_first db base fuel : ∀ i j,
  (j < fuel)%nat →
  qs_exists (filter_slug (candidate base (i + j)) db) = false →
  (∀ l, (l < j)%nat → qs_exists (filter_slug (candidate base (i + l)) db) = true) →
  get_unique_slug_loop fuel db base (candidate base i) (S i) = candidate base (i + j).
Proof.
  induction fuel as [|fuel IH]; intros i j Hj Hfree Hbelow; [lia|].
  cbn [get_unique_slug_loop]. destruct j as [|j].
  - rewrite Nat.add_0_r in *. by rewrite Hfree.
  - pose proof (Hbelow 0%nat) as Hfirst. rewrite Nat.add_0_r in Hfirst.
    rewrite Hfirst by lia.
    replace (i + S j)%nat with (S i + j)%nat in * by lia.
    apply (IH (S i) j); [lia|done|].
    intros l Hl. replace (S i + l)%nat with (i + S l)%nat by lia.
    apply Hbelow. lia.
Qed.

(** X1.  [get_unique_slug] returns the first of the candidates
    [slug], [slug-1], [slug-2], ... that no row has; it is found among the
    first [size db + 1] of them, and the slug returned is free. *)
Theorem get_unique_slug_first_free db d :
  ∃ j, (j ≤ size db)%nat ∧
       get_unique_slug db d = candidate (slugify (title d)) j ∧
       qs_exists (filter_slug (get_unique_slug db d) db) = false ∧
       ∀ i, (i < j)%nat →
         qs_exists (filter_slug (candidate (slugify (title d)) i) db) = true.
Proof.
  destruct (first_free_candidate db (slugify (title d)) (S (size db)))
    as [Hall|(j & Hj & Hfree & Hbelow)].
  - destruct (candidate_free db (slugify (title d))) as (j & Hj & Hfree).
    rewrite Hall in Hfree by lia. done.
  - exists j.
    pose proof (get_unique_slug_loop_first db (slugify (title d)) (S (size db))
                  0%nat j Hj Hfree Hbelow) as Hloop.
    change (get_unique_slug db d = candidate (slugify (title d)) j) in Hloop.
    rewrite Hloop. split_and!; [lia|done|done|done].
Qed.

(** ** [Diary.save] and the uniqueness of slugs *)

Lemma Diary_save_empty_slug o st :
  truthy (slug o.2) = false →
  ∃ k d',
    Diary_save o st = (Ok (Some k, d'), set_diary_table (<[k:=d']> (diary_table st)) st) ∧
    slug d' = Some (get_unique_slug (diary_table st) o.2) ∧
    (o.1 = Some k ∨ o.1 = None ∧ diary_table st !! k = None) ∧
    title d' = title o.2 ∧ content d' = content o.2 ∧ author d' = author o.2 ∧
    status d' = status o.2 ∧ is_published d' = is_published o.2 ∧ views d' = views o.2.
Proof.
  intros Hempty. destruct o as [[k|] d]; unfold Diary_save; cbn [fst snd] in *;
    rewrite Hempty.
  - eexists _, _. split_and!; try done. by left.
  - eexists _, _. split_and!; try done. right. split; [done|].
    apply not_elem_of_dom, is_fresh.
Qed.

Lemma slugs_unique_insert_free (db : gmap nat Diary) k d s :
  slug d = Some s → qs_exists (filter_slug s db) = false →
  slugs_unique db → slugs_unique (<[k:=d]> db).
Proof.
  intros Hs Hfree Huniq k1 k2 d1 d2 s' H1 H2 Hs1 Hs2.
  assert (∀ k0 d0, db !! k0 = Some d0 → slug d0 ≠ Some s) as Hnot.
  { intros k0 d0 Hk0 Hs0. apply not_true_iff_false in Hfree. apply Hfree.
    apply slug_taken. eauto. }
  destruct (decide (k1 = k)) as [->|Hne1], (decide (k2 = k)) as [->|Hne2];
    [done|..].
  - rewrite lookup_insert_eq in H1. rewrite lookup_insert_ne in H2 by done.
    simplify_eq. destruct (Hnot _ _ H2). congruence.
  - rewrite lookup_insert_eq in H2. rewrite lookup_insert_ne in H1 by done.
    simplify_eq. destruct (Hnot _ _ H1). congruence.
  - rewrite lookup_insert_ne in H1, H2 by done. by eapply Huniq.
Qed.

(** X2.  Saving an instance whose slug is empty keeps the slugs of the
    table pairwise different: the row written carries a slug that no row
    had. *)
Theorem Diary_save_keeps_slugs_unique o st :
  truthy (slug o.2) = false →
  slugs_unique (diary_table st) →
  slugs_unique (diary_table (Diary_save o st).2).
Proof.
  intros Hempty Huniq.
  destruct (Diary_save_empty_slug o st Hempty) as (k & d' & -> & Hs & _).
  cbn. eapply slugs_unique_insert_free; [done| |done].
  apply get_unique_slug_fresh.
Qed.

End SuffixSearch.

(** ** The management command *)

Section FakeData.
Context `{External}.

Lemma qs_get_filter_none {A} (P : nat * A → Prop) `{!∀ x, Decision (P x)}
    (q : gmap nat A) :
  (∀ k a, q !! k = Some a → ¬ P (k, a)) →
  qs_get (filter P q) = Raise DoesNotExist.
Proof.
  intros Hnone. apply qs_get_Raise_DoesNotExist, map_empty. intros k.
  apply map_lookup_filter_None. right. intros a Hk. by apply Hnone.
Qed.

Lemma handle_loop_effect fake pk rounds : ∀ i st,
  (handle_loop fake pk i rounds st).1 = Ok tt ∧
  size (diary_table (handle_loop fake pk i rounds st).2)
    = (size (diary_table st) + rounds)%nat ∧
  (slugs_unique (diary_table st) →
   slugs_unique (diary_table (handle_loop fake pk i rounds st).2)) ∧
  (∀ k d, diary_table st !! k = Some d →
     diary_table (handle_loop fake pk i rounds st).2 !! k = Some d) ∧
  (∀ k d, diary_table (handle_loop fake pk i rounds st).2 !! k = Some d →
     diary_table st !! k = None →
     author d = Some pk ∧ new_row d ∧
     ∃ j, (i ≤ j < i + rounds)%nat ∧ title d = (fake j).1 ∧ content d = (fake j).2) ∧
  user_table (handle_loop fake pk i rounds st).2 = user_table st ∧
  outbox (handle_loop fake pk i rounds st).2 = outbox st.
Proof.
  induction rounds as [|rounds IH]; intros i st.
  - cbn [handle_loop]. unfold m_ret. cbn [fst snd]. rewrite Nat.add_0_r.
    split_and!; try done. intros k d Hk Hnone. congruence.
  - cbn [handle_loop]. unfold Diary_objects_create.
    destruct (Diary_save_empty_slug
                (None, set_status "no_published"
                         (set_author (Some pk) (Diary_new (fake i).1 (fake i).2 None))) st)
      as (k0 & d0 & Hsave & Hslug & [?|[_ Hfresh]] & Ht & Hc & Ha & Hs & Hp & Hv);
      [done|done|].
    rewrite (m_bind_Ok _ _ _ _ _ Hsave).
    set (st1 := set_diary_table (<[k0:=d0]> (diary_table st)) st).
    destruct (IH (S i) st1) as (Hok & Hsize & Hu & Hold & Hnew & Husers & Hout).
    split_and!.
    + done.
    + rewrite Hsize. cbn. rewrite map_size_insert_None by done. lia.
    + intros Huniq. apply Hu.
      eapply slugs_unique_insert_free; [done| |done]. apply get_unique_slug_fresh.
    + intros k d Hk. apply Hold. cbn. rewrite lookup_insert_ne; [done|]. congruence.
    + intros k d Hk Hnone. destruct (decide (k = k0)) as [->|Hne].
      * assert (diary_table st1 !! k0 = Some d0) as Hk0 by apply lookup_insert_eq.
        apply Hold in Hk0. simplify_eq. split_and!; [done|by split_and!|].
        exists i. split_and!; [lia|lia|done|done].
      * destruct (Hnew k d Hk) as (Hauth & Hrow & j & Hj & Htj & Hcj).
        { cbn. by rewrite lookup_insert_ne. }
        split_and!; [done|done|]. exists j. split_and!; [lia|lia|done|done].
    + by rewrite Husers.
    + by rewrite Hout.
Qed.

(** X3.  The command, for an address that no user has, writes nothing
    and reports that; for the address of exactly one user it adds twenty
    unpublished entries of that user, built from the twenty draws, keeps
    the old rows, keeps the slugs pairwise different if they were, and
    sends no mail. *)
Theorem Command_handle_effect st address fake :
  ((∀ k u, user_table st !! k = Some u → email u ≠ address) →
     Command_handle address fake st
       = (Ok ("Пользователь с email " +:+ address +:+ " не найден."), st)) ∧
  (∀ pk u, qs_get (filter_email address (user_table st)) = Ok (pk, u) →
     is_Ok (Command_handle address fake st).1 = true ∧
     size (diary_table (Command_handle address fake st).2)
       = (size (diary_table st) + 20)%nat ∧
     (slugs_unique (diary_table st) →
      slugs_unique (diary_table (Command_handle address fake st).2)) ∧
     (∀ k d, diary_table st !! k = Some d →
        diary_table (Command_handle address fake st).2 !! k = Some d) ∧
     (∀ k d, diary_table (Command_handle address fake st).2 !! k = Some d →
        diary_table st !! k = None →
        author d = Some pk ∧ new_row d ∧
        ∃ j, (j < 20)%nat ∧ title d = (fake j).1 ∧ content d = (fake j).2) ∧
     user_table (Command_handle address fake st).2 = user_table st ∧
     outbox (Command_handle address fake st).2 = outbox st).
Proof.
  split.
  - intros Hnone. unfold Command_handle, filter_email.
    rewrite qs_get_filter_none; [done|]. intros k u Hk. exact (Hnone k u Hk).
  - intros pk u Hget. unfold Command_handle. rewrite Hget.
    pose proof (handle_loop_effect fake pk 20 0%nat st) as Heffect.
    rewrite m_bind_state by done. unfold m_bind.
    set (run := handle_loop fake pk 0 20 st) in *. clearbody run.
    destruct Heffect as (Hok & Hsize & Hu & Hold & Hnew & Husers & Hout).
    destruct run as [[[]|e] st1]; [|discriminate Hok].
    cbn [fst snd] in *. split_and!; [reflexivity|exact Hsize|exact Hu|exact Hold|
                                      |exact Husers|exact Hout].
    intros k d Hk Hnone. destruct (Hnew k d Hk Hnone) as (Ha & Hrow & j & Hj & Ht & Hc).
    split_and!; [exact Ha|exact Hrow|]. exists j. split_and!; [lia|exact Ht|exact Hc].
Qed.

End FakeData.

(** ** Confirmation of the e-mail address *)

Section Accounts.
Context `{External}.

Lemma get_object_or_404_Ok {A} (q : gmap nat A) k a :
  get_object_or_404 q = Ok (k, a) ↔ q = {[k := a]}.
Proof.
  unfold get_object_or_404. rewrite <- qs_get_Ok.
  destruct (qs_get q) as [|[]]; naive_solver.
Qed.

Lemma get_object_or_404_filter_none {A} (P : nat * A → Prop)
    `{!∀ x, Decision (P x)} (q : gmap nat A) :
  (∀ k a, q !! k = Some a → ¬ P (k, a)) →
  get_object_or_404 (filter P q) = Raise Http404.
Proof.
  intros Hnone. unfold get_object_or_404. by rewrite qs_get_filter_none.
Qed.

Lemma email_confirm_run request code st :
  email_confirm request code st =
    match get_object_or_404 (filter_verification_code code (user_table st)) with
    | Ok (pk, u) =>
        if is_active u
        then (Ok (mkReply None [("info", "Аккаунт уже активирован.")]), st)
        else (Ok (mkReply (Some (HttpResponseRedirect "/users/login/")) []),
              set_user_table
                (<[pk:=mkUser (email u) (password u) (first_name u) (last_name u)
                         (avatar u) (num_phone u) (country u) None
                         true (is_superuser u) (user_permissions u)]> (user_table st)) st)
    | Raise e => (Raise e, st)
    end.
Proof.
  unfold email_confirm, m_bind, m_gets, m_lift. cbn.
  destruct (get_object_or_404 _) as [[pk u]|e]; [|done].
  by destruct (is_active u).
Qed.

(** X4.  Confirmation with the code of exactly one, inactive, account
    activates that account and clears its code, keeps its address,
    password and permissions, and answers with the redirect to the login
    page; the same code presented again finds no account. *)
Theorem email_confirm_activates st request code pk u :
  get_object_or_404 (filter_verification_code code (user_table st)) = Ok (pk, u) →
  is_active u = false →
  ∃ u',
    email_confirm request code st
      = (Ok (mkReply (Some (HttpResponseRedirect "/users/login/")) []),
         set_user_table (<[pk:=u']> (user_table st)) st) ∧
    is_active u' = true ∧ verification_code u' = None ∧
    email u' = email u ∧ password u' = password u ∧
    is_superuser u' = is_superuser u ∧ user_permissions u' = user_permissions u ∧
    email_confirm request code (set_user_table (<[pk:=u']> (user_table st)) st)
      = (Raise Http404, set_user_table (<[pk:=u']> (user_table st)) st).
Proof.
  intros Hget Hinactive. eexists. split.
  { rewrite email_confirm_run, Hget, Hinactive. reflexivity. }
  split_and!; try done.
  rewrite email_confirm_run. cbn [user_table set_user_table].
  unfold filter_verification_code at 1.
  rewrite get_object_or_404_filter_none; [done|].
  intros k a Hk Hcode. cbn in Hcode.
  apply get_object_or_404_Ok in Hget.
  destruct (decide (k = pk)) as [->|Hne].
  - rewrite lookup_insert_eq in Hk. by simplify_eq.
  - rewrite lookup_insert_ne in Hk by done.
    assert (filter_verification_code code (user_table st) !! k = Some a) as Hf.
    { by apply map_lookup_filter_Some. }
    rewrite Hget in Hf. apply lookup_singleton_Some in Hf as [? _]. done.
Qed.

(** X5.  Confirmation changes nothing in two cases: a code that no
    account carries is answered with [Http404]; for an account that is
    already active the function queues the information message and
    returns no response. *)
Theorem email_confirm_without_effect st request code :
  ((∀ k u, user_table st !! k = Some u → verification_code u ≠ Some code) →
     email_confirm request code st = (Raise Http404, st)) ∧
  (∀ pk u,
     get_object_or_404 (filter_verification_code code (user_table st)) = Ok (pk, u) →
     is_active u = true →
     email_confirm request code st
       = (Ok (mkReply None [("info", "Аккаунт уже активирован.")]), st)).
Proof.
  split.
  - intros Hnone. rewrite email_confirm_run. unfold filter_verification_code.
    rewrite get_object_or_404_filter_none; [done|].
    intros k u Hk. exact (Hnone k u Hk).
  - intros pk u Hget Hactive. by rewrite email_confirm_run, Hget, Hactive.
Qed.

(** ** Registration followed by confirmation *)

(** The state a valid registration form leaves. *)
Lemma register_effect st request code e p1 p2 :
  EmailField_clean (POST request !! "email") = Ok e →
  CharField_clean None (POST request !! "password1") = Ok p1 →
  CharField_clean None (POST request !! "password2") = Ok p2 →
  (∀ k u, user_table st !! k = Some u → email u ≠ e) →
  ∃ u,
    RegisterView_post request code st
      = (Ok (HttpResponseRedirect "/users/login/"),
         set_user_table (<[fresh (dom (user_table st)):=u]> (user_table st))
           (set_outbox
              (outbox st ++
                 [mkMail "Подтверждение почты"
                    ("Для подтверждения почты перейдите по ссылке: " +:+
                       ("http://" +:+ get_host request +:+ "/users/email-confirm/" +:+ code))
                    EMAIL_HOST_USER [e] None])%list st)) ∧
    email u = e ∧ password u = make_password p1 ∧ is_active u = false ∧
    verification_code u = Some code ∧ is_superuser u = false ∧
    user_permissions u = ∅.
Proof.
  intros He H1 H2 Hnew.
  unfold RegisterView_post, UserRegisterForm_full_clean.
  rewrite (register_form_clean _ _ _ _ He H1 H2).
  unfold validate_unique_email.
  rewrite lookup_insert_ne, lookup_insert_ne, lookup_insert_eq by done.
  assert (qs_exists (filter (λ ku, email ku.2 = e) (user_table st)) = false) as ->.
  { apply qs_exists_false, map_empty. intros k. apply map_lookup_filter_None.
    right. intros u Hk. by apply Hnew in Hk. }
  cbn [app].
  unfold RegisterView_form_valid, m_bind, m_lift, m_ret, send_mail, m_modify, User_save.
  rewrite lookup_insert_ne, lookup_insert_eq by done.
  rewrite lookup_insert_ne, lookup_insert_ne, lookup_insert_eq by done.
  cbn. rewrite insert_insert_eq. eexists. split; [reflexivity|]. split_and!; done.
Qed.

(** X6.  A registration with a new address and a code that no account
    carries yet, then the confirmation with that code: the account exists
    and is inactive in between, and is active, without code, with the
    registered address and the hash of the first password afterwards. *)
Theorem register_then_confirm st request request' code e p1 p2 :
  EmailField_clean (POST request !! "email") = Ok e →
  CharField_clean None (POST request !! "password1") = Ok p1 →
  CharField_clean None (POST request !! "password2") = Ok p2 →
  (∀ k u, user_table st !! k = Some u →
     email u ≠ e ∧ verification_code u ≠ Some code) →
  ∃ k u u',
    user_table st !! k = None ∧
    user_table (RegisterView_post request code st).2 !! k = Some u ∧
    is_active u = false ∧
    (email_confirm request' code (RegisterView_post request code st).2).1
      = Ok (mkReply (Some (HttpResponseRedirect "/users/login/")) []) ∧
    user_table (email_confirm request' code (RegisterView_post request code st).2).2 !! k
      = Some u' ∧
    is_active u' = true ∧ verification_code u' = None ∧
    email u' = e ∧ password u' = make_password p1.
Proof.
  intros He H1 H2 Hnew.
  destruct (register_effect st request code e p1 p2 He H1 H2) as
    (u & -> & Hue & Hup & Hua & Huc & _).
  { intros k u Hk. by apply Hnew in Hk as [? _]. }
  set (k := fresh (dom (user_table st))).
  assert (user_table st !! k = None) as Hk by apply not_elem_of_dom, is_fresh.
  cbn [snd user_table set_user_table set_outbox].
  set (st1 := set_user_table _ _).
  assert (get_object_or_404 (filter_verification_code code (user_table st1)) = Ok (k, u))
    as Hget.
  { apply get_object_or_404_Ok, map_eq. intros i. subst st1. cbn.
    destruct (decide (i = k)) as [->|Hne].
    - rewrite lookup_singleton_eq. apply map_lookup_filter_Some.
      by rewrite lookup_insert_eq.
    - rewrite lookup_singleton_ne by done. apply map_lookup_filter_None. right.
      intros u0 Hi. rewrite lookup_insert_ne in Hi by done.
      by apply Hnew in Hi as [_ ?]. }
  rewrite email_confirm_run, Hget, Hua.
  exists k, u,
    (mkUser (email u) (password u) (first_name u) (last_name u) (avatar u)
       (num_phone u) (country u) None true (is_superuser u) (user_permissions u)).
  split_and!.
  - exact Hk.
  - subst st1. cbn. apply lookup_insert_eq.
  - exact Hua.
  - reflexivity.
  - cbn. apply lookup_insert_eq.
  - reflexivity.
  - reflexivity.
  - exact Hue.
  - exact Hup.
Qed.

End Accounts.

Section AccountEffects.
Context `{External}.

Lemma qs_exists_filter_true {A} (P : nat * A → Prop) `{!∀ x, Decision (P x)}
    (q : gmap nat A) k a :
  q !! k = Some a → P (k, a) → qs_exists (filter P q) = true.
Proof.
  intros Hk HP. apply not_false_iff_true. rewrite qs_exists_false. intros Hempty.
  assert (filter P q !! k = Some a) as Hf by by apply map_lookup_filter_Some.
  by rewrite Hempty, lookup_empty in Hf.
Qed.

(** X7.  A valid registration appends exactly one mail, addressed to the
    registered address, whose text ends with the confirmation link made
    of the request's host and the code; it adds one account and leaves
    the existing accounts and all entries as they were. *)
Theorem register_sends_confirmation st request code e p1 p2 :
  EmailField_clean (POST request !! "email") = Ok e →
  CharField_clean None (POST request !! "password1") = Ok p1 →
  CharField_clean None (POST request !! "password2") = Ok p2 →
  (∀ k u, user_table st !! k = Some u → email u ≠ e) →
  outbox (RegisterView_post request code st).2
    = (outbox st ++
         [mkMail "Подтверждение почты"
            ("Для подтверждения почты перейдите по ссылке: " +:+
               ("http://" +:+ get_host request +:+ "/users/email-confirm/" +:+ code))
            EMAIL_HOST_USER [e] None])%list ∧
  size (user_table (RegisterView_post request code st).2) = S (size (user_table st)) ∧
  (∀ k u, user_table st !! k = Some u →
     user_table (RegisterView_post request code st).2 !! k = Some u) ∧
  diary_table (RegisterView_post request code st).2 = diary_table st.
Proof.
  intros He H1 H2 Hnew.
  destruct (register_effect st request code e p1 p2 He H1 H2 Hnew) as (u & -> & _).
  assert (user_table st !! fresh (dom (user_table st)) = None) as Hfresh
    by apply not_elem_of_dom, is_fresh.
  cbn. split_and!; [done| |intros k u0 Hk|done].
  - by rewrite map_size_insert_None.
  - rewrite lookup_insert_ne; [done|]. congruence.
Qed.

(** X8.  A registration is refused, with the form shown again and the
    state untouched (no account, no mail), when one of the three fields
    fails its cleaning or the address already belongs to an account. *)
Theorem register_refused st request code :
  (∃ err, EmailField_clean (POST request !! "email") = Raise err) ∨
  (∃ err, CharField_clean None (POST request !! "password1") = Raise err) ∨
  (∃ err, CharField_clean None (POST request !! "password2") = Raise err) ∨
  (∃ e k u, EmailField_clean (POST request !! "email") = Ok e ∧
            user_table st !! k = Some u ∧ email u = e) →
  ∃ errors,
    errors ≠ [] ∧
    RegisterView_post request code st
      = (Ok (FormInvalid "users/register.html" errors), st).
Proof.
  intros Hcase.
  unfold RegisterView_post, UserRegisterForm_full_clean, UserRegisterForm_fields.
  cbn [clean_fields].
  change (getattr ("clean_" +:+ "email") UserRegisterForm_methods) with
    (@None (gmap string string → Result (option string))).
  change (getattr ("clean_" +:+ "password1") UserRegisterForm_methods) with
    (@None (gmap string string → Result (option string))).
  change (getattr ("clean_" +:+ "password2") UserRegisterForm_methods) with
    (@None (gmap string string → Result (option string))).
  destruct (EmailField_clean (POST request !! "email")) as [e|err0] eqn:He;
    destruct (CharField_clean None (POST request !! "password1")) as [p1|err1] eqn:H1;
    destruct (CharField_clean None (POST request !! "password2")) as [p2|err2] eqn:H2;
    cbn [app]; try (eexists; split; [|reflexivity]; discriminate).
  destruct Hcase as [[? ?]|[[? ?]|[[? ?]|(e' & k & u & [= <-] & Hk & Hu)]]];
    [done..|].
  unfold validate_unique_email.
  rewrite lookup_insert_ne, lookup_insert_ne, lookup_insert_eq by done.
  rewrite (qs_exists_filter_true _ _ k u Hk Hu). cbn [app].
  eexists; split; [|reflexivity]. discriminate.
Qed.

(** ** Password reset *)

(** X9.  The reset, for an address that no account has, shows the form
    again with the error message and changes nothing (no mail); for the
    address of exactly one account it stores the hash of the new password
    in that account alone, keeps its other fields, and appends one mail
    to that address carrying the new password in clear. *)
Theorem GeneratePasswordView_effect st request address new_password :
  ((∀ k u, user_table st !! k = Some u → email u ≠ address) →
     GeneratePasswordView_form_valid request address new_password st
       = (Ok (mkReply (Some (FormInvalid "users/reset_password.html" []))
                [("error", "Пользователь с таким email не найден.")]), st)) ∧
  (∀ pk u, qs_get (filter_email address (user_table st)) = Ok (pk, u) →
     ∃ u',
       GeneratePasswordView_form_valid request address new_password st
         = (Ok (mkReply (Some (HttpResponseRedirect "/users/login/")) []),
            set_outbox (outbox st ++ [password_mail new_password address])%list
              (set_user_table (<[pk:=u']> (user_table st)) st)) ∧
       password u' = make_password new_password ∧
       email u' = address ∧ is_active u' = is_active u ∧
       verification_code u' = verification_code u ∧
       is_superuser u' = is_superuser u ∧ user_permissions u' = user_permissions u).
Proof.
  split.
  - intros Hnone. unfold GeneratePasswordView_form_valid, filter_email.
    rewrite qs_get_filter_none; [done|]. intros k u Hk. exact (Hnone k u Hk).
  - intros pk u Hget. unfold GeneratePasswordView_form_valid. rewrite Hget.
    assert (email u = address) as Hu.
    { apply qs_get_Ok in Hget.
      assert (filter_email address (user_table st) !! pk = Some u) as Hf
        by (rewrite Hget; apply lookup_singleton_eq).
      by apply map_lookup_filter_Some in Hf as [_ ?]. }
    eexists. split.
    + unfold m_bind, User_save, send_mail, m_modify, m_ret. cbn. rewrite Hu. reflexivity.
    + split_and!; done.
Qed.

End AccountEffects.

(** ** The listings *)

Section Listings.
Context `{External} `{Collation}.

Lemma owned_queryset_spec request st k d :
  owned_queryset request st !! k = Some d ↔
  diary_table st !! k = Some d ∧ user_is (user request) (author d) = true.
Proof.
  unfold owned_queryset, user_is, filter_author.
  destruct (user request) as [|uid u].
  - rewrite lookup_empty. split; [done|]. by intros [_ ?].
  - rewrite map_lookup_filter_Some. cbn. split.
    + intros [Hk ->]. split; [done|]. by apply bool_decide_eq_true.
    + intros [Hk Ha]. split; [done|]. destruct (author d) as [a|]; [|done].
      apply bool_decide_eq_true in Ha. by subst.
Qed.

(** X10.  The list of "my entries" holds exactly the entries whose
    author is the requester (whatever their status) that pass the title
    filter; without [q], or with an empty [q], no filter applies.  An
    entry of another author is never listed. *)
Theorem DiaryListView_lists_own_entries st request k d :
  DiaryListView_get_queryset request st !! k = Some d ↔
  diary_table st !! k = Some d ∧
  user_is (user request) (author d) = true ∧
  (truthy (GET request !! "q") = true →
     icontains (title d) (default "" (GET request !! "q")) = true).
Proof.
  unfold DiaryListView_get_queryset. destruct (truthy (GET request !! "q")).
  - rewrite map_lookup_filter_Some, owned_queryset_spec. cbn. split.
    + intros [[Hk Hu] Hq]. by split_and!.
    + intros (Hk & Hu & Hq). split; [done|]. by apply Hq.
  - rewrite owned_queryset_spec. split.
    + intros [Hk Hu]. by split_and!.
    + intros (Hk & Hu & _). done.
Qed.

Lemma moderation_action_row st request s k d :
  has_perm (user request) "diary.can_moderate" = true →
  get_by_slug (diary_table st) s = Ok (k, d) →
  ∃ d',
    diary_table (DiaryModerationActionView_post request s st).2 !! k = Some d' ∧
    (∀ k', k' ≠ k →
       diary_table (DiaryModerationActionView_post request s st).2 !! k'
         = diary_table st !! k') ∧
    title d' = title d ∧ content d' = content d ∧
    author d' = author d ∧ views d' = views d ∧
    (in_POST "approve" request = true →
       status d' = "published" ∧ is_published d' = true) ∧
    (in_POST "approve" request = false → in_POST "reject" request = true →
       status d' = "rejected" ∧ is_published d' = is_published d) ∧
    (in_POST "approve" request = false → in_POST "reject" request = false → d' = d).
Proof.
  intros Hperm Hget. pose proof (get_by_slug_lookup _ _ _ _ Hget) as [Hk _].
  destruct (has_perm_authenticated _ _ Hperm) as (uid & u & Hu).
  unfold DiaryModerationActionView_post, LoginRequiredMixin, PermissionRequiredMixin.
  rewrite Hu, <- Hu, Hperm.
  rewrite (m_bind_Ok _ _ _ _ _ (eq_trans (get_object_run _ _ _) (f_equal (., st) Hget))).
  rewrite m_bind_state by done.
  destruct (in_POST "approve" request); [|destruct (in_POST "reject" request)].
  - rewrite m_bind_state by done.
    destruct (Diary_save_update_row k (set_is_published true (set_status "published" d)) st)
      as (d' & -> & Hs & Hp & Ha & Hv & Ht & Hc & _).
    exists d'. cbn. rewrite lookup_insert_eq. split_and!; try done.
    intros k' Hne. by rewrite lookup_insert_ne.
  - rewrite m_bind_state by done.
    destruct (Diary_save_update_row k (set_status "rejected" d) st)
      as (d' & -> & Hs & Hp & Ha & Hv & Ht & Hc & _).
    exists d'. cbn. rewrite lookup_insert_eq. split_and!; try done.
    intros k' Hne. by rewrite lookup_insert_ne.
  - exists d. split_and!; done.
Qed.

(** X11.  The moderator's decision and the two listings: an approved
    entry is on the public list and off the moderation queue, with its
    title, text, author and count as before; a rejected entry is off the
    queue, and is on the public list exactly if it was published before;
    no other entry is touched. *)
Theorem decision_and_listings st request s k d :
  has_perm (user request) "diary.can_moderate" = true →
  get_by_slug (diary_table st) s = Ok (k, d) →
  (in_POST "approve" request = true →
     ∃ d',
       HomeListView_get_queryset (DiaryModerationActionView_post request s st).2 !! k
         = Some d' ∧
       title d' = title d ∧ content d' = content d ∧
       author d' = author d ∧ views d' = views d) ∧
  (in_POST "approve" request = false → in_POST "reject" request = true →
     (is_Some (HomeListView_get_queryset
                 (DiaryModerationActionView_post request s st).2 !! k)
        ↔ is_published d = true)) ∧
  (in_POST "approve" request = true ∨ in_POST "reject" request = true →
     DiaryModerationListView_get_queryset
       (DiaryModerationActionView_post request s st).2 !! k = None) ∧
  (∀ k', k' ≠ k →
     diary_table (DiaryModerationActionView_post request s st).2 !! k'
       = diary_table st !! k').
Proof.
  intros Hperm Hget.
  destruct (moderation_action_row st request s k d Hperm Hget)
    as (d' & Hrow & Hframe & Ht & Hc & Ha & Hv & Happ & Hrej & _).
  unfold HomeListView_get_queryset, DiaryModerationListView_get_queryset,
    filter_is_published, filter_status.
  split_and!; [| | |done].
  - intros Hyes. destruct (Happ Hyes) as [Hs Hp]. exists d'.
    split_and!; try done. by apply map_lookup_filter_Some.
  - intros Hno Hyes. destruct (Hrej Hno Hyes) as [Hs Hp].
    rewrite <- Hp. split.
    + intros [d0 Hd0]. apply map_lookup_filter_Some in Hd0 as [Hd0 Hp0].
      by simplify_eq.
    + intros Hp'. exists d'. by apply map_lookup_filter_Some.
  - intros Hany. apply map_lookup_filter_None. right. intros d0 Hd0. cbn.
    assert (d0 = d') as -> by congruence.
    destruct (in_POST "approve" request) eqn:Happrove.
    + destruct (Happ eq_refl) as [-> _]. discriminate.
    + destruct Hany as [?|Hyes]; [done|]. destruct (Hrej eq_refl Hyes) as [-> _].
      discriminate.
Qed.

(** X12.  A submit request whose read succeeds puts the entry on the
    moderation queue; the entry is on the public list afterwards exactly
    if it was published before. *)
Theorem submit_enters_queue st request s k d :
  get_by_slug (diary_table st) s = Ok (k, d) →
  in_POST "publish" request = true →
  is_Ok (DiaryDetailView_get_object request s st).1 = true →
  is_Some (DiaryModerationListView_get_queryset
             (DiaryDetailView_post request s st).2 !! k) ∧
  (is_Some (HomeListView_get_queryset (DiaryDetailView_post request s st).2 !! k)
     ↔ is_published d = true).
Proof.
  intros Hget Hpost Hok.
  destruct (DiaryDetailView_get_object request s st) as [[[k1 d1]|e] st1] eqn:Hread;
    [|done].
  destruct (read_Ok_result _ _ _ _ _ _ _ Hget Hread) as [[= -> ->] _].
  destruct (post_after_read _ _ _ _ _ _ Hread Hpost) as (d' & Htable & Hs & Hp).
  assert (is_published d' = is_published d) as Hpd.
  { rewrite Hp. by destruct (is_published d) eqn:Hpub. }
  unfold HomeListView_get_queryset, DiaryModerationListView_get_queryset,
    filter_is_published, filter_status.
  rewrite Htable. split.
  - exists d'. apply map_lookup_filter_Some. by rewrite lookup_insert_eq.
  - rewrite <- Hpd. split.
    + intros [d0 Hd0]. apply map_lookup_filter_Some in Hd0 as [Hd0 Hp0].
      rewrite lookup_insert_eq in Hd0. by simplify_eq.
    + intros Hp'. exists d'. apply map_lookup_filter_Some. by rewrite lookup_insert_eq.
Qed.

End Listings.

(** ** The owner's update and delete *)

Section OwnerEdits.
Context `{External}.

Lemma owned_queryset_authenticated request st s k d :
  get_by_slug (owned_queryset request st) s = Ok (k, d) →
  ∃ uid u, user request = AuthUser uid u.
Proof.
  intros Hget. apply get_by_slug_lookup in Hget as [Hk _].
  unfold owned_queryset in Hk. destruct (user request); [|by eauto].
  by rewrite lookup_empty in Hk.
Qed.

Lemma DiaryForm_save_keeps_slug k d f st s :
  slug d = Some s → s ≠ "" →
  DiaryForm_save true (Some k, d) f st
    = (Ok (Some k, set_form_fields (form_title f) (form_content f) (form_preview f) d),
       set_diary_table
         (<[k:=set_form_fields (form_title f) (form_content f) (form_preview f) d]>
            (diary_table st)) st).
Proof.
  intros Hslug Hs. pose proof (truthy_Some _ Hs) as Ht.
  unfold DiaryForm_save. cbn [fst snd].
  change (slug (set_form_fields (form_title f) (form_content f) (form_preview f) d))
    with (slug d).
  rewrite Hslug, Ht. unfold Diary_save. cbn [fst snd].
  change (slug (set_form_fields (form_title f) (form_content f) (form_preview f) d))
    with (slug d).
  by rewrite Hslug, Ht.
Qed.

Lemma DiaryForm_clean_fields request f :
  DiaryForm_clean request = Ok f →
  CharField_clean (Some 100%nat) (POST request !! "title") = Ok (form_title f) ∧
  CharField_clean None (POST request !! "content") = Ok (form_content f) ∧
  preview_clean request = Ok (form_preview f).
Proof.
  unfold DiaryForm_clean.
  destruct (CharField_clean (Some 100%nat) (POST request !! "title")); [|done].
  destruct (CharField_clean None (POST request !! "content")); [|done].
  destruct (preview_clean request); [|done].
  by intros [= <-].
Qed.

Lemma preview_clean_cases request p :
  preview_clean request = Ok p →
  (CheckboxInput_value (POST request !! "preview-clear") = false →
   FILES request !! "preview" = None → p = None) ∧
  (CheckboxInput_value (POST request !! "preview-clear") = true →
   FILES request !! "preview" = None ∧ p = Some "") ∧
  (∀ file, CheckboxInput_value (POST request !! "preview-clear") = false →
     FILES request !! "preview" = Some file →
     ∃ file', ImageField_clean file = Ok file' ∧ p = Some (storage_save file')).
Proof.
  unfold preview_clean.
  destruct (CheckboxInput_value (POST request !! "preview-clear")),
    (FILES request !! "preview") as [file|]; try done.
  - intros [= <-]. by split_and!.
  - destruct (ImageField_clean file) as [file'|] eqn:Hfile; [|done].
    intros [= <-]. split_and!; [done..|]. intros ? _ [= <-]. by exists file'.
  - intros [= <-]. by split_and!.
Qed.

(** X13.  An update by the author with a valid form replaces the title
    and the text of that entry.  The image is the one stored before when
    the request carries neither an upload nor the checked clear box, is
    emptied when the box is checked, and is the uploaded file, which the
    image field has accepted, under the name the storage gives it
    otherwise.  Slug, status, published flag, count, date and author
    stay, as does every other row; the answer is the redirect to the
    entry's detail page. *)
Theorem owner_update st request s k d f :
  get_by_slug (owned_queryset request st) s = Ok (k, d) →
  DiaryForm_clean request = Ok f →
  s ≠ "" →
  DiaryUpdateView_post request s st
    = (Ok (HttpResponseRedirect ("/" +:+ s +:+ "/")),
       set_diary_table
         (<[k:=mkDiary (form_title f) (form_content f) (slug d) (author d)
                  (is_published d) (status d)
                  (match form_preview f with Some v => Some v | None => preview d end)
                  (created_at d) (views d)]> (diary_table st)) st) ∧
  CharField_clean (Some 100%nat) (POST request !! "title") = Ok (form_title f) ∧
  CharField_clean None (POST request !! "content") = Ok (form_content f) ∧
  (CheckboxInput_value (POST request !! "preview-clear") = false →
   FILES request !! "preview" = None → form_preview f = None) ∧
  (CheckboxInput_value (POST request !! "preview-clear") = true →
   FILES request !! "preview" = None ∧ form_preview f = Some "") ∧
  (∀ file, CheckboxInput_value (POST request !! "preview-clear") = false →
     FILES request !! "preview" = Some file →
     ∃ file', ImageField_clean file = Ok file' ∧
              form_preview f = Some (storage_save file')).
Proof.
  intros Hget Hform Hs.
  destruct (DiaryForm_clean_fields _ _ Hform) as (Ht & Hc & Hp).
  split; [|by pose proof (preview_clean_cases _ _ Hp) as (? & ? & ?)].
  destruct (owned_queryset_authenticated _ _ _ _ _ Hget) as (uid & u & Hu).
  pose proof (get_by_slug_lookup _ _ _ _ Hget) as [_ Hslug].
  unfold DiaryUpdateView_post, LoginRequiredMixin, DiaryUpdateView_get_queryset.
  rewrite Hu.
  rewrite (m_bind_Ok _ _ _ _ _ (eq_trans (get_object_run _ _ _) (f_equal (., st) Hget))).
  rewrite Hform.
  rewrite (m_bind_Ok _ _ _ _ _ (DiaryForm_save_keeps_slug k d f st s Hslug Hs)).
  cbn [snd].
  change (slug (set_form_fields (form_title f) (form_content f) (form_preview f) d))
    with (slug d).
  rewrite Hslug. unfold reverse_detail, m_bind, m_lift, m_ret.
  destruct (String.eqb_spec s ""); [done|].
  unfold set_form_fields. by rewrite Hslug.
Qed.

(** X14.  A delete by the author removes that row and no other and
    answers with the redirect to the list; when the slugs were pairwise
    different, a later read of the slug by anyone is answered with
    [Http404]. *)
Theorem owner_delete st request request' s k d :
  get_by_slug (owned_queryset request st) s = Ok (k, d) →
  DiaryDeleteView_post request s st
    = (Ok (HttpResponseRedirect "/diary/"),
       set_diary_table (delete k (diary_table st)) st) ∧
  (slugs_unique (diary_table st) →
     DiaryDetailView_get request' s (DiaryDeleteView_post request s st).2
       = (Raise Http404, (DiaryDeleteView_post request s st).2)).
Proof.
  intros Hget.
  destruct (owned_queryset_authenticated _ _ _ _ _ Hget) as (uid & u & Hu).
  assert (DiaryDeleteView_post request s st
          = (Ok (HttpResponseRedirect "/diary/"),
             set_diary_table (delete k (diary_table st)) st)) as Hrun.
  { unfold DiaryDeleteView_post, LoginRequiredMixin, DiaryDeleteView_get_queryset.
    rewrite Hu.
    by rewrite (m_bind_Ok _ _ _ _ _
                  (eq_trans (get_object_run _ _ _) (f_equal (., st) Hget))). }
  split; [done|]. intros Huniq. rewrite Hrun. cbn [snd].
  apply get_by_slug_lookup in Hget as [Hk Hs].
  apply owned_queryset_spec in Hk as [Hk _].
  unfold DiaryDetailView_get.
  rewrite (m_bind_Raise _ _ _ Http404 (set_diary_table (delete k (diary_table st)) st));
    [done|].
  apply get_object_not_found. cbn. apply get_by_slug_Http404, map_empty. intros i.
  destruct (filter_slug s (delete k (diary_table st)) !! i) as [d'|] eqn:Hi; [|done].
  apply filter_slug_lookup in Hi as [Hi Hs'].
  apply lookup_delete_Some in Hi as [Hne Hi].
  destruct Hne. symmetry. by eapply Huniq.
Qed.

End OwnerEdits.

(** ** Requests without effect *)

Section Refusals.
Context `{External}.

(** X15.  A moderation request changes nothing when the requester lacks
    the permission (an anonymous client is sent to the login page, an
    authenticated one gets [PermissionDenied]), when no entry has the
    slug ([Http404]), or when the form names neither decision. *)
Theorem moderation_action_without_effect st request s :
  (has_perm (user request) "diary.can_moderate" = false →
     DiaryModerationActionView_post request s st
       = (match user request with
          | AnonymousUser => Ok (HttpResponseRedirect LOGIN_URL)
          | AuthUser _ _ => Raise PermissionDenied
          end, st)) ∧
  (has_perm (user request) "diary.can_moderate" = true →
     (∀ k d, diary_table st !! k = Some d → slug d ≠ Some s) →
     DiaryModerationActionView_post request s st = (Raise Http404, st)) ∧
  (has_perm (user request) "diary.can_moderate" = true →
     in_POST "approve" request = false → in_POST "reject" request = false →
     is_Ok (get_by_slug (diary_table st) s) = true →
     DiaryModerationActionView_post request s st
       = (Ok (HttpResponseRedirect "/moderation/"), st)).
Proof.
  unfold DiaryModerationActionView_post, LoginRequiredMixin, PermissionRequiredMixin.
  split_and!.
  - intros Hperm. rewrite Hperm. by destruct (user request).
  - intros Hperm Hnone. destruct (has_perm_authenticated _ _ Hperm) as (uid & u & Hu).
    rewrite Hu, <- Hu, Hperm. unfold m_bind. rewrite get_object_run.
    assert (get_by_slug (diary_table st) s = Raise Http404) as ->; [|done].
    apply get_by_slug_Http404, map_empty. intros i.
    destruct (filter_slug s (diary_table st) !! i) as [d'|] eqn:Hi; [|done].
    apply filter_slug_lookup in Hi as [Hi Hs']. by destruct (Hnone _ _ Hi).
  - intros Hperm Hno1 Hno2 Hfound.
    destruct (has_perm_authenticated _ _ Hperm) as (uid & u & Hu).
    rewrite Hu, <- Hu, Hperm, Hno1, Hno2. unfold m_bind. rewrite get_object_run.
    by destruct (get_by_slug (diary_table st) s) as [[k d]|e].
Qed.

(** X16.  A read of the detail page changes nothing and sends nothing
    when no entry has the slug, answered with 404, and when the entry is
    unpublished and the requester is not its author (an anonymous client
    included), answered with 403. *)
Theorem detail_read_refusals st request s :
  ((∀ k d, diary_table st !! k = Some d → slug d ≠ Some s) →
     DiaryDetailView_get request s st = (Raise Http404, st) ∧
     status_code (DiaryDetailView_get request s st).1 = 404%nat) ∧
  (∀ k d, get_by_slug (diary_table st) s = Ok (k, d) →
     is_published d = false →
     user_is (user request) (author d) = false →
     DiaryDetailView_get request s st = (Raise PermissionDenied, st) ∧
     status_code (DiaryDetailView_get request s st).1 = 403%nat).
Proof.
  split.
  - intros Hnone.
    assert (get_by_slug (diary_table st) s = Raise Http404) as Hget.
    { apply get_by_slug_Http404, map_empty. intros i.
      destruct (filter_slug s (diary_table st) !! i) as [d'|] eqn:Hi; [|done].
      apply filter_slug_lookup in Hi as [Hi Hs']. by destruct (Hnone _ _ Hi). }
    unfold DiaryDetailView_get.
    by rewrite (m_bind_Raise _ _ _ _ _ (get_object_not_found _ _ _ _ Hget)).
  - intros k d Hget Hp Hu. unfold DiaryDetailView_get.
    by rewrite (m_bind_Raise _ _ _ _ _ (read_refused _ _ _ _ _ Hget Hp Hu)).
Qed.

(** X17.  The author's read of an own unpublished entry returns the
    entry as it is stored and leaves the entry table alone, provided the
    count is below 100 or the author's row exists. *)
Theorem owner_reads_own_draft st request s k d uid u :
  get_by_slug (diary_table st) s = Ok (k, d) →
  is_published d = false →
  user request = AuthUser uid u → author d = Some uid →
  views d < 100 ∨ is_Some (user_table st !! uid) →
  (DiaryDetailView_get request s st).1
    = Ok (TemplateResponse "diary/diary_detail.html" (Some (k, d))) ∧
  diary_table (DiaryDetailView_get request s st).2 = diary_table st.
Proof.
  intros Hget Hp Huser Ha Hcase. unfold DiaryDetailView_get, m_bind.
  rewrite (get_object_found _ _ _ _ _ Hget), Hp, Huser, Ha. cbn [negb andb user_is].
  rewrite bool_decide_eq_true_2 by done. cbn [negb andb].
  destruct (Z.geb_spec (views d) 100) as [Hge|Hlt]; [|done].
  destruct Hcase as [?|[u0 ->]]; [lia|done].
Qed.

End Refusals.

(** ** The further properties on the sample inputs *)

Lemma slugs_unique_singleton k d : slugs_unique {[k := d]}.
Proof.
  intros k1 k2 d1 d2 s H1 H2 _ _.
  apply lookup_singleton_Some in H1 as [<- _].
  by apply lookup_singleton_Some in H2 as [<- _].
Qed.

Lemma slugs_unique_empty : slugs_unique ∅.
Proof. intros k1 k2 d1 d2 s H1. by rewrite lookup_empty in H1. Qed.

Lemma Diary_save_keeps_slugs_unique_witness :
  truthy (slug (Diary_new "note" "again" None)) = false ∧
  slugs_unique (diary_table draft_state) ∧
  slugs_unique
    (diary_table (Diary_save (H:=sample_external)
                    (None, Diary_new "note" "again" None) draft_state).2).
Proof.
  split_and!; [reflexivity | apply slugs_unique_singleton |].
  apply (Diary_save_keeps_slugs_unique (H:=sample_external)
           (None, Diary_new "note" "again" None) draft_state);
    [reflexivity | apply slugs_unique_singleton].
Defined.

Lemma Command_handle_effect_witness :
  qs_get (filter_email "alice@localhost" (user_table draft_state)) = Ok (1%nat, alice) ∧
  size (diary_table (Command_handle (H:=sample_external)
                       "alice@localhost" sample_fake draft_state).2)
    = (size (diary_table draft_state) + 20)%nat ∧
  slugs_unique (diary_table (Command_handle (H:=sample_external)
                               "alice@localhost" sample_fake draft_state).2).
Proof.
  split; [vm_compute; reflexivity|].
  destruct (Command_handle_effect (H:=sample_external) draft_state
              "alice@localhost" sample_fake)
    as [_ Hknown].
  destruct (Hknown 1%nat alice) as (_ & Hsize & Huniq & _);
    [vm_compute; reflexivity |].
  split; [exact Hsize | exact (Huniq (slugs_unique_singleton _ _))].
Defined.

Lemma email_confirm_activates_witness :
  get_object_or_404 (filter_verification_code "0123456789abcdef"
                       (user_table pending_state)) = Ok (4%nat, carol) ∧
  is_active carol = false ∧
  ∃ u', (email_confirm (anonymous ∅)
           "0123456789abcdef" pending_state).2
          = set_user_table (<[4%nat:=u']> (user_table pending_state)) pending_state ∧
        is_active u' = true.
Proof.
  split_and!; [vm_compute; reflexivity | reflexivity |].
  destruct (email_confirm_activates pending_state (anonymous ∅)
              "0123456789abcdef" 4%nat carol)
    as (u' & Hrun & Hactive & _); [vm_compute; reflexivity | reflexivity |].
  exists u'. split; [|exact Hactive].
  exact (f_equal snd Hrun).
Defined.

Lemma register_then_confirm_witness :
  EmailField_clean (External:=sample_external)
    (POST (anonymous register_form) !! "email") = Ok "carol@localhost" ∧
  ∃ k u',
    user_table
      (email_confirm (anonymous ∅) "0123456789abcdef"
         (RegisterView_post (H:=sample_external) (anonymous register_form)
            "0123456789abcdef" (empty_state 0)).2).2 !! k = Some u' ∧
    is_active u' = true ∧ email u' = "carol@localhost".
Proof.
  split; [vm_compute; reflexivity|].
  destruct (register_then_confirm (H:=sample_external) (empty_state 0)
              (anonymous register_form) (anonymous ∅) "0123456789abcdef"
              "carol@localhost" "secret" "secret")
    as (k & u & u' & _ & _ & _ & _ & Hrow & Hactive & _ & Hmail & _);
    [vm_compute; reflexivity | vm_compute; reflexivity | vm_compute; reflexivity
    | intros k u Hk; cbn in Hk; by rewrite lookup_empty in Hk |].
  exists k, u'. split_and!; [exact Hrow | exact Hactive | exact Hmail].
Defined.

Lemma register_sends_confirmation_witness :
  EmailField_clean (External:=sample_external)
    (POST (anonymous register_form) !! "email") = Ok "carol@localhost" ∧
  size (user_table (RegisterView_post (H:=sample_external) (anonymous register_form)
                      "0123456789abcdef" (empty_state 0)).2)
    = S (size (user_table (empty_state 0))).
Proof.
  split; [vm_compute; reflexivity|].
  destruct (register_sends_confirmation (H:=sample_external) (empty_state 0)
              (anonymous register_form) "0123456789abcdef"
              "carol@localhost" "secret" "secret")
    as (_ & Hsize & _);
    [vm_compute; reflexivity | vm_compute; reflexivity | vm_compute; reflexivity
    | intros k u Hk; cbn in Hk; by rewrite lookup_empty in Hk | exact Hsize].
Defined.

Lemma register_refused_witness :
  EmailField_clean (External:=sample_external) (POST (anonymous ∅) !! "email")
    = Raise (ValidationError "required") ∧
  ∃ errors,
    errors ≠ [] ∧
    RegisterView_post (H:=sample_external) (anonymous ∅) "0123456789abcdef" draft_state
      = (Ok (FormInvalid "users/register.html" errors), draft_state).
Proof.
  split; [vm_compute; reflexivity|].
  apply (register_refused (H:=sample_external) draft_state (anonymous ∅)
           "0123456789abcdef").
  left. exists (ValidationError "required"). vm_compute. reflexivity.
Defined.

Lemma decision_and_listings_witness :
  has_perm (user (as_user 3 moderator approve_form)) "diary.can_moderate" = true ∧
  get_by_slug (diary_table draft_state) "note" = Ok (7%nat, draft) ∧
  DiaryModerationListView_get_queryset
    (DiaryModerationActionView_post (H:=sample_external)
       (as_user 3 moderator approve_form) "note" draft_state).2 !! 7%nat = None.
Proof.
  split_and!; [vm_compute; reflexivity | vm_compute; reflexivity |].
  destruct (decision_and_listings (H:=sample_external) draft_state
              (as_user 3 moderator approve_form) "note" 7%nat draft)
    as (_ & _ & Hqueue & _); [vm_compute; reflexivity | vm_compute; reflexivity |].
  apply Hqueue. left. vm_compute. reflexivity.
Defined.

Lemma submit_enters_queue_witness :
  get_by_slug (diary_table story_state) "story" = Ok (5%nat, story) ∧
  in_POST "publish" (as_user 1 alice publish_form) = true ∧
  is_Some (DiaryModerationListView_get_queryset
             (DiaryDetailView_post (H:=sample_external)
                (as_user 1 alice publish_form) "story" story_state).2 !! 5%nat).
Proof.
  split_and!; [vm_compute; reflexivity | vm_compute; reflexivity |].
  apply (submit_enters_queue (H:=sample_external) story_state
           (as_user 1 alice publish_form) "story" 5%nat story);
    vm_compute; reflexivity.
Defined.

Lemma owner_update_witness :
  get_by_slug (owned_queryset (as_user 1 alice edit_form) pictured_state) "pic"
    = Ok (9%nat, pictured) ∧
  DiaryForm_clean (H:=sample_external) (as_user 1 alice edit_form)
    = Ok (mkDiaryFormData "changed" "changed" None) ∧
  DiaryUpdateView_post (H:=sample_external)
     (as_user 1 alice edit_form) "pic" pictured_state
    = (Ok (HttpResponseRedirect "/pic/"),
       set_diary_table
         (<[9%nat:=mkDiary "changed" "changed" (Some "pic") (Some 1%nat) false
                     "no_published" (Some "media/diary/images/old.png") 0%nat 0]>
            (diary_table pictured_state)) pictured_state).
Proof.
  split_and!; [vm_compute; reflexivity | vm_compute; reflexivity |].
  apply (owner_update (H:=sample_external) pictured_state (as_user 1 alice edit_form)
           "pic" 9%nat pictured (mkDiaryFormData "changed" "changed" None));
    [vm_compute; reflexivity | vm_compute; reflexivity | discriminate].
Defined.

Lemma owner_delete_witness :
  get_by_slug (owned_queryset (as_user 1 alice ∅) draft_state) "note"
    = Ok (7%nat, draft) ∧
  DiaryDeleteView_post (H:=sample_external) (as_user 1 alice ∅) "note" draft_state
    = (Ok (HttpResponseRedirect "/diary/"),
       set_diary_table (delete 7%nat (diary_table draft_state)) draft_state).
Proof.
  split; [vm_compute; reflexivity|].
  apply (owner_delete (H:=sample_external) draft_state (as_user 1 alice ∅)
           (anonymous ∅) "note" 7%nat draft).
  vm_compute; reflexivity.
Defined.

Lemma owner_reads_own_draft_witness :
  get_by_slug (diary_table draft_state) "note" = Ok (7%nat, draft) ∧
  is_published draft = false ∧ author draft = Some 1%nat ∧
  (DiaryDetailView_get (H:=sample_external) (as_user 1 alice ∅) "note" draft_state).1
    = Ok (TemplateResponse "diary/diary_detail.html" (Some (7%nat, draft))).
Proof.
  split_and!; [vm_compute; reflexivity | reflexivity | reflexivity |].
  apply (owner_reads_own_draft (H:=sample_external) draft_state (as_user 1 alice ∅)
           "note" 7%nat draft 1%nat alice);
    [vm_compute; reflexivity | reflexivity | reflexivity | reflexivity |].
  right. exists alice. vm_compute. reflexivity.
Defined.

(** ** Creating an entry through the form *)

Section Creation.
Context `{External}.

Lemma truthy_false_inv s : truthy (Some s) = false → s = "".
Proof.
  unfold truthy. destruct (String.eqb_spec s ""); [done|discriminate].
Qed.

Lemma Diary_save_insert d st :
  Diary_save (None, d) st =
    (Ok (Some (fresh (dom (diary_table st))),
         set_created_at (today st)
           (if truthy (slug d) then d
            else set_slug (Some (get_unique_slug (diary_table st) d)) d)),
     set_diary_table
       (<[fresh (dom (diary_table st)):=
            set_created_at (today st)
              (if truthy (slug d) then d
               else set_slug (Some (get_unique_slug (diary_table st) d)) d)]>
          (diary_table st)) st).
Proof. reflexivity. Qed.

Local Ltac keep_preview :=
  match goal with |- _ = form_preview ?f => by destruct (form_preview f) end.

Lemma create_table st request f :
  ∃ k d,
    diary_table st !! k = None ∧
    DiaryCreateView_form_valid request f st
      = (Ok (HttpResponseRedirect "/diary/"),
         set_diary_table (<[k:=d]> (diary_table st)) st) ∧
    title d = form_title f ∧ content d = form_content f ∧ preview d = form_preview f ∧
    author d = match user request with AuthUser uid _ => Some uid | AnonymousUser => None end ∧
    new_row d ∧ created_at d = today st ∧ truthy (slug d) = true ∧
    (slugify (form_title f) ≠ "" → slug d = Some (slugify (form_title f))).
Proof.
  set (k := fresh (dom (diary_table st))).
  assert (diary_table st !! k = None) as Hfresh by apply not_elem_of_dom, is_fresh.
  exists k.
  unfold DiaryCreateView_form_valid.
  unfold DiaryForm_save at 1. cbn [fst snd]. rewrite m_bind_ret.
  change (truthy (slug (set_form_fields (form_title f) (form_content f)
            (form_preview f) (Diary_new "" "" None)))) with false. cbv iota.
  set (a := match user request with AuthUser uid _ => Some uid | AnonymousUser => None end).
  set (r1 := set_author a _).
  rewrite (m_bind_Ok _ _ _ _ _ (Diary_save_insert r1 st)). fold k.
  set (d1 := set_created_at (today st) _).
  set (st1 := set_diary_table _ st).
  unfold DiaryForm_save. cbn [fst snd].
  unfold m_bind at 1. rewrite Diary_save_update. cbn zeta. unfold m_ret.
  subst st1. unfold set_diary_table at 1. cbn [diary_table user_table outbox today set_diary_table].
  rewrite insert_insert_eq.
  eexists. split; [exact Hfresh|]. split; [reflexivity|].
  change (slug (set_form_fields (form_title f) (form_content f) (form_preview f) d1))
    with (slug d1).
  change (title (set_form_fields (form_title f) (form_content f) (form_preview f) d1))
    with (form_title f).
  subst d1.
  change (slug r1) with (Some (slugify (form_title f))).
  destruct (truthy (Some (slugify (form_title f)))) eqn:Ht.
  - cbn [slug set_created_at]. 
    change (slug r1) with (Some (slugify (form_title f))). rewrite Ht.
    cbn [slug set_form_fields set_created_at].
    change (slug r1) with (Some (slugify (form_title f))). rewrite Ht.
    split_and!; try reflexivity; try keep_preview. { by split_and!. } done.
  - set (g1 := get_unique_slug (diary_table st) r1). clearbody g1. subst r1.
    cbn [slug title content preview author views is_published status created_at
         set_created_at set_slug set_form_fields set_author Diary_new].
    destruct (truthy (Some g1)) eqn:Hg1.
    + cbn [slug title content preview author views is_published status created_at
           set_created_at set_slug set_form_fields set_author Diary_new].
      rewrite Hg1.
      cbn [slug title content preview author views is_published status created_at
           set_created_at set_slug set_form_fields set_author Diary_new].
      split_and!; try reflexivity; try keep_preview. { by split_and!. } { done. }
      intros Hne. apply truthy_Some in Hne. congruence.
    + cbn [slug title content preview author views is_published status created_at
           set_created_at set_slug set_form_fields set_author Diary_new].
      rewrite Ht.
      match goal with |- context [get_unique_slug ?db ?d] =>
        pose proof (get_unique_slug_fresh db d) as Hfree;
        set (g2 := get_unique_slug db d) in * end.
      clearbody g2.
      cbn [slug title content preview author views is_published status created_at
           set_created_at set_slug set_form_fields set_author Diary_new].
      assert (g2 ≠ "") as Hg2.
      { intros ->. apply not_true_iff_false in Hfree. apply Hfree.
        apply slug_taken. eexists k, _. split; [apply lookup_insert_eq|].
        cbn. by rewrite (truthy_false_inv g1 Hg1). }
      split_and!; try reflexivity; try keep_preview. { by split_and!. } { by apply truthy_Some. }
      intros Hne. apply truthy_Some in Hne. congruence.
Qed.


(** X18.  Creating an entry: an anonymous request is sent to the login
    page and a request whose form fails is shown the form again, both
    without any change; the form fails in particular when the title and
    the text are accepted and the uploaded file is refused by the image
    field, or comes together with the checked clear box.  A valid form of
    an authenticated user adds exactly one row under a new key, with the
    title and text of the form, the requester as author, the creation
    date of today, unpublished with zero views and a non-empty slug (the
    slugified title as it is, when that is not empty), and answers with
    the redirect to the list; the image of the row is the accepted
    upload from [request.FILES] under the name the storage gives it, the
    empty name when the clear box is checked, and none when neither is
    submitted. *)
Theorem create_contract st request :
  (user request = AnonymousUser →
     DiaryCreateView_post request st = (Ok (HttpResponseRedirect LOGIN_URL), st)) ∧
  (∀ uid u e, user request = AuthUser uid u → DiaryForm_clean request = Raise e →
     DiaryCreateView_post request st
       = (Ok (FormInvalid "diary/diary_form.html" [("", e)]), st)) ∧
  (∀ uid u t c file,
     user request = AuthUser uid u →
     CharField_clean (Some 100%nat) (POST request !! "title") = Ok t →
     CharField_clean None (POST request !! "content") = Ok c →
     FILES request !! "preview" = Some file →
     (∀ e, CheckboxInput_value (POST request !! "preview-clear") = false →
        ImageField_clean file = Raise e →
        DiaryCreateView_post request st
          = (Ok (FormInvalid "diary/diary_form.html" [("", e)]), st)) ∧
     (CheckboxInput_value (POST request !! "preview-clear") = true →
        ∃ e, DiaryCreateView_post request st
          = (Ok (FormInvalid "diary/diary_form.html" [("", e)]), st))) ∧
  (∀ uid u f, user request = AuthUser uid u → DiaryForm_clean request = Ok f →
     ∃ k d,
       diary_table st !! k = None ∧
       DiaryCreateView_post request st
         = (Ok (HttpResponseRedirect "/diary/"),
            set_diary_table (<[k:=d]> (diary_table st)) st) ∧
       title d = form_title f ∧ content d = form_content f ∧
       preview d = form_preview f ∧ author d = Some uid ∧
       created_at d = today st ∧ new_row d ∧ truthy (slug d) = true ∧
       (slugify (form_title f) ≠ "" → slug d = Some (slugify (form_title f))) ∧
       CharField_clean (Some 100%nat) (POST request !! "title") = Ok (title d) ∧
       CharField_clean None (POST request !! "content") = Ok (content d) ∧
       (CheckboxInput_value (POST request !! "preview-clear") = false →
        FILES request !! "preview" = None → preview d = None) ∧
       (CheckboxInput_value (POST request !! "preview-clear") = true →
        FILES request !! "preview" = None ∧ preview d = Some "") ∧
       (∀ file, CheckboxInput_value (POST request !! "preview-clear") = false →
          FILES request !! "preview" = Some file →
          ∃ file', ImageField_clean file = Ok file' ∧
                   preview d = Some (storage_save file'))).
Proof.
  unfold DiaryCreateView_post, LoginRequiredMixin. split_and!.
  - by intros ->.
  - intros uid u e -> ->. done.
  - intros uid u t c file -> Ht Hc Hfile. unfold DiaryForm_clean, preview_clean.
    rewrite Ht, Hc, Hfile. split.
    + intros e -> ->. done.
    + intros ->. by eexists.
  - intros uid u f Hu Hf. rewrite Hu, Hf.
    destruct (create_table st request f)
      as (k & d & Hk & Hrun & Ht & Hc & Hp & Ha & Hnew & Hdate & Hslug & Hbare).
    destruct (DiaryForm_clean_fields _ _ Hf) as (Hft & Hfc & Hfp).
    pose proof (preview_clean_cases _ _ Hfp) as (Hp1 & Hp2 & Hp3).
    rewrite Hu in Ha. rewrite <- Hp in Hp1, Hp2, Hp3. rewrite <- Ht in Hft.
    rewrite <- Hc in Hfc. exists k, d. split_and!; done.
Qed.

End Creation.

Lemma create_contract_witness :
  user (upload_request "cat.png") = AuthUser 1%nat alice ∧
  DiaryForm_clean (H:=sample_external) (upload_request "cat.png")
    = Ok (mkDiaryFormData "changed" "changed" (Some "media/diary/images/cat.png")) ∧
  ∃ k d,
    DiaryCreateView_post (H:=sample_external) (upload_request "cat.png") (empty_state 3)
      = (Ok (HttpResponseRedirect "/diary/"),
         set_diary_table (<[k:=d]> (diary_table (empty_state 3))) (empty_state 3)) ∧
    title d = "changed" ∧ author d = Some 1%nat ∧
    preview d = Some "media/diary/images/cat.png".
Proof.
  split_and!; [reflexivity | vm_compute; reflexivity |].
  destruct (create_contract (H:=sample_external) (empty_state 3)
              (upload_request "cat.png")) as (_ & _ & _ & Hvalid).
  destruct (Hvalid 1%nat alice
              (mkDiaryFormData "changed" "changed" (Some "media/diary/images/cat.png"))
              eq_refl ltac:(vm_compute; reflexivity))
    as (k & d & _ & Hrun & Ht & _ & Hp & Ha & _).
  exists k, d. split_and!; [exact Hrun | exact Ht | exact Ha | exact Hp].
Defined.

(** ** What an operation can do to a row *)

Section Rows.
Context `{External}.

Lemma row_step_refl d : row_step d d.
Proof. unfold row_step. split_and!; [lia|lia|done|done|done|by left]. Qed.

Lemma rows_increment (db : gmap nat Diary) k0 k d' :
  increment_views k0 db !! k = Some d' →
  ∃ d, db !! k = Some d ∧ row_step d d'.
Proof.
  unfold increment_views. rewrite lookup_alter_Some.
  intros [(-> & d & Hd & ->)|[_ Hd]].
  - exists d. split; [done|]. unfold row_step. cbn.
    split_and!; [lia|lia|done|done|done|by left].
  - exists d'. split; [done|apply row_step_refl].
Qed.

Lemma rows_read request s st k d' :
  diary_table (DiaryDetailView_get_object request s st).2 !! k = Some d' →
  ∃ d, diary_table st !! k = Some d ∧ row_step d d'.
Proof.
  destruct (get_by_slug (diary_table st) s) as [[k0 d0]|e] eqn:Hget.
  - rewrite (get_object_found _ _ _ _ _ Hget). cbn zeta.
    assert (diary_table st !! k = Some d' → ∃ d, diary_table st !! k = Some d ∧ row_step d d')
      as Hsame by (intros ?; exists d'; split; [done|apply row_step_refl]).
    repeat case_match; cbn; try apply Hsame; apply rows_increment.
  - rewrite (get_object_not_found _ _ _ _ Hget). cbn. intros Hk.
    exists d'. split; [done|apply row_step_refl].
Qed.

(** The row [Diary.save] writes over an existing key differs from the
    instance at most in the slug, and only when that was empty. *)
Lemma Diary_save_update_slug k d st :
  ∃ d', Diary_save (Some k, d) st
          = (Ok (Some k, d'), set_diary_table (<[k:=d']> (diary_table st)) st) ∧
        views d' = views d ∧ is_published d' = is_published d ∧
        status d' = status d ∧ created_at d' = created_at d ∧
        author d' = author d ∧
        (truthy (slug d) = true → slug d' = slug d).
Proof.
  rewrite Diary_save_update. cbn zeta.
  destruct (truthy (slug d)); eexists; split_and!; done.
Qed.

Lemma rows_post request s st k d' :
  diary_table (DiaryDetailView_post request s st).2 !! k = Some d' →
  ∃ d, diary_table st !! k = Some d ∧ row_step d d'.
Proof.
  unfold DiaryDetailView_post.
  destruct (DiaryDetailView_get_object request s st) as [[[k0 d1]|e] st1] eqn:Hread.
  - rewrite (m_bind_Ok _ _ _ _ _ Hread).
    rewrite m_bind_state by (intros; by rewrite m_bind_state).
    assert (∀ i di, diary_table st1 !! i = Some di →
              ∃ d, diary_table st !! i = Some d ∧ row_step d di) as Hrows.
    { intros i di Hi. apply (rows_read request s st i di). by rewrite Hread. }
    destruct (in_POST "publish" request); [|apply Hrows].
    rewrite m_bind_state by done.
    destruct (Diary_save_update_slug k0 (set_status "moderation" d1) st1)
      as (d2 & -> & Hv & Hp & _ & Hc & Ha & Hs).
    cbn. destruct (decide (k = k0)) as [->|Hne].
    + rewrite lookup_insert_eq. intros [= <-].
      assert (diary_table st1 !! k0 = Some d1) as Hk1.
      { destruct (get_by_slug (diary_table st) s) as [[k' d]|e] eqn:Hget.
        - destruct (read_Ok_result _ _ _ _ _ _ _ Hget Hread) as [[= -> ->] ->].
          pose proof (get_by_slug_lookup _ _ _ _ Hget) as [Hk _].
          destruct (is_published d); [by apply increment_views_lookup|done].
        - rewrite (get_object_not_found _ _ _ _ Hget) in Hread. done. }
      destruct (Hrows _ _ Hk1) as (d & Hd & Hv0 & Hp0 & Hs0 & Hc0 & Ha0).
      exists d. split; [done|]. unfold row_step. cbn in *.
      split_and!; [lia|lia| | | |].
      * intros Hpub. rewrite Hp. by apply Hp0.
      * intros Ht. rewrite Hs; [by apply Hs0|]. by rewrite (Hs0 Ht).
      * congruence.
      * destruct Ha0 as [Ha0|Ha0]; [left|right]; congruence.
    + rewrite lookup_insert_ne by done. apply Hrows.
  - rewrite (m_bind_Raise _ _ _ _ _ Hread).
    intros Hk. apply (rows_read request s st k d'). by rewrite Hread.
Qed.

Lemma rows_moderation request s st k d' :
  diary_table (DiaryModerationActionView_post request s st).2 !! k = Some d' →
  ∃ d, diary_table st !! k = Some d ∧ row_step d d'.
Proof.
  assert (diary_table st !! k = Some d' → ∃ d, diary_table st !! k = Some d ∧ row_step d d')
    as Hsame by (intros ?; exists d'; split; [done|apply row_step_refl]).
  unfold DiaryModerationActionView_post, LoginRequiredMixin, PermissionRequiredMixin.
  destruct (user request); [done|].
  destruct (has_perm _ _); [|done].
  unfold m_bind at 1. rewrite get_object_run.
  destruct (get_by_slug (diary_table st) s) as [[k0 d]|e] eqn:Hget; [|done].
  pose proof (get_by_slug_lookup _ _ _ _ Hget) as [Hk0 _].
  rewrite m_bind_state by done.
  assert (∀ d1, views d1 = views d → created_at d1 = created_at d →
            author d1 = author d → slug d1 = slug d →
            (is_published d = true → is_published d1 = true) →
            diary_table (Diary_save (Some k0, d1) st).2 !! k = Some d' →
            ∃ d, diary_table st !! k = Some d ∧ row_step d d') as Hsave.
  { intros d1 Hv1 Hc1 Ha1 Hs1 Hp1.
    destruct (Diary_save_update_slug k0 d1 st) as (d2 & -> & Hv & Hp & _ & Hc & Ha & Hs).
    cbn. destruct (decide (k = k0)) as [->|Hne].
    - rewrite lookup_insert_eq. intros [= <-]. exists d. split; [done|].
      unfold row_step. split_and!; [lia|lia| | | |].
      + intros Hpub. rewrite Hp. by apply Hp1.
      + intros Ht. rewrite Hs; [done|]. by rewrite Hs1.
      + congruence.
      + left. congruence.
    - rewrite lookup_insert_ne by done. apply Hsame. }
  destruct (in_POST "approve" request); [|destruct (in_POST "reject" request)].
  - rewrite m_bind_state by done. by apply Hsave.
  - rewrite m_bind_state by done. by apply Hsave.
  - done.
Qed.

Lemma rows_update request s st k d' :
  diary_table (DiaryUpdateView_post request s st).2 !! k = Some d' →
  ∃ d, diary_table st !! k = Some d ∧ row_step d d'.
Proof.
  assert (diary_table st !! k = Some d' → ∃ d, diary_table st !! k = Some d ∧ row_step d d')
    as Hsame by (intros ?; exists d'; split; [done|apply row_step_refl]).
  unfold DiaryUpdateView_post, LoginRequiredMixin.
  destruct (user request) as [|uid u] eqn:Huser; [done|].
  unfold m_bind at 1. rewrite get_object_run. unfold DiaryUpdateView_get_queryset.
  destruct (get_by_slug (owned_queryset request st) s) as [[k0 d]|e] eqn:Hget; [|done].
  apply owned_queryset_lookup in Hget as (Hk0 & _).
  destruct (DiaryForm_clean request) as [f|e]; [|done].
  rewrite m_bind_state by (intros; by rewrite m_bind_state).
  unfold DiaryForm_save. cbn [fst snd].
  match goal with |- context [Diary_save (Some k0, ?r)] =>
    destruct (Diary_save_update_slug k0 r st) as (d2 & -> & Hv & Hp & _ & Hc & Ha & Hs)
  end.
  cbn. destruct (decide (k = k0)) as [->|Hne]; [|by rewrite lookup_insert_ne].
  rewrite lookup_insert_eq. intros [= <-]. exists d. split; [done|].
  change (slug (set_form_fields (form_title f) (form_content f) (form_preview f) d))
    with (slug d) in *.
  unfold row_step. destruct (truthy (slug d)) eqn:Ht; cbn in *.
  - split_and!; [lia|lia|congruence|intros _; by rewrite Hs|congruence|left; congruence].
  - split_and!; [lia|lia|congruence|done|congruence|left; congruence].
Qed.

Lemma rows_delete request s st k d' :
  diary_table (DiaryDeleteView_post request s st).2 !! k = Some d' →
  diary_table st !! k = Some d'.
Proof.
  unfold DiaryDeleteView_post, LoginRequiredMixin.
  destruct (user request) as [|uid u] eqn:Huser; [done|].
  unfold m_bind at 1. rewrite get_object_run.
  destruct (get_by_slug _ s) as [[k0 d]|e] eqn:Hget; [|done].
  rewrite m_bind_state by done. cbn. rewrite lookup_delete_Some. by intros [_ ?].
Qed.

Lemma rows_create request st k d' :
  diary_table (DiaryCreateView_post request st).2 !! k = Some d' →
  match diary_table st !! k with
  | Some d => d' = d
  | None => new_row d' ∧ truthy (slug d') = true
  end.
Proof.
  assert (diary_table st !! k = Some d' →
          match diary_table st !! k with
          | Some d => d' = d
          | None => new_row d' ∧ truthy (slug d') = true
          end) as Hsame by (by intros ->).
  unfold DiaryCreateView_post, LoginRequiredMixin.
  destruct (user request) as [|uid u] eqn:Huser; [done|].
  destruct (DiaryForm_clean request) as [f|e]; [|done].
  destruct (create_table st request f) as (k0 & d0 & Hk0 & -> & _ & _ & _ & _ & Hnew & _ & Hslug & _).
  cbn. destruct (decide (k = k0)) as [->|Hne].
  - rewrite lookup_insert_eq, Hk0. by intros [= <-].
  - by rewrite lookup_insert_ne.
Qed.

Lemma rows_user_delete uid st k d' :
  diary_table (User_delete uid st) !! k = Some d' →
  ∃ d, diary_table st !! k = Some d ∧ row_step d d'.
Proof.
  unfold User_delete. cbn. rewrite lookup_fmap_Some. intros (d & <- & Hd).
  exists d. split; [done|]. case_bool_decide; [|apply row_step_refl].
  unfold row_step. cbn. split_and!; [lia|lia|done|done|done|by right].
Qed.

(** X19.  Whatever the operation, a row it leaves in the table under an
    old key has a count that is the old one or the old one plus one, is
    still published if it was, has the slug it had if that was not empty,
    the creation date it had, and the author it had or none; a row under
    a new key is unpublished with zero views and a non-empty slug. *)
Theorem exec_rows op st k d' :
  diary_table (exec op st) !! k = Some d' →
  match diary_table st !! k with
  | Some d => row_step d d'
  | None => new_row d' ∧ truthy (slug d') = true
  end.
Proof.
  assert (∀ st', (diary_table st' !! k = Some d' →
                  ∃ d, diary_table st !! k = Some d ∧ row_step d d') →
          diary_table st' !! k = Some d' →
          match diary_table st !! k with
          | Some d => row_step d d'
          | None => new_row d' ∧ truthy (slug d') = true
          end) as Hold.
  { intros st' Hrows Hk. by destruct (Hrows Hk) as (d & -> & ?). }
  destruct op; cbn [exec].
  - apply Hold. unfold DiaryDetailView_get. rewrite m_bind_state by done.
    apply rows_read.
  - apply Hold, rows_post.
  - apply Hold, rows_moderation.
  - intros Hk. apply rows_create in Hk.
    destruct (diary_table st !! k); [subst; apply row_step_refl|done].
  - apply Hold, rows_update.
  - apply Hold. intros Hk. apply rows_delete in Hk.
    exists d'. split; [done|apply row_step_refl].
  - apply Hold. rewrite register_keeps. intros Hk.
    exists d'. split; [done|apply row_step_refl].
  - apply Hold, rows_user_delete.
Qed.

(** Every entry of a reachable state has a non-empty slug and a count
    that is not negative. *)
Lemma reachable_rows st :
  reachable st →
  ∀ k d, diary_table st !! k = Some d → truthy (slug d) = true ∧ 0 ≤ views d.
Proof.
  induction 1 as [day|op st _ IH]; intros k d' Hk.
  - cbn in Hk. by rewrite lookup_empty in Hk.
  - destruct op; cbn [exec] in Hk.
    + unfold DiaryDetailView_get in Hk. rewrite m_bind_state in Hk by done.
      apply rows_read in Hk as (d & Hd & Hv & _ & Hs & _).
      destruct (IH _ _ Hd) as [Ht ?]. rewrite (Hs Ht). split; [done|lia].
    + apply rows_post in Hk as (d & Hd & Hv & _ & Hs & _).
      destruct (IH _ _ Hd) as [Ht ?]. rewrite (Hs Ht). split; [done|lia].
    + apply rows_moderation in Hk as (d & Hd & Hv & _ & Hs & _).
      destruct (IH _ _ Hd) as [Ht ?]. rewrite (Hs Ht). split; [done|lia].
    + apply rows_create in Hk. destruct (diary_table st !! k) as [d|] eqn:Hd.
      * subst. by apply IH in Hd.
      * destruct Hk as [(-> & _) ?]. split; [done|lia].
    + apply rows_update in Hk as (d & Hd & Hv & _ & Hs & _).
      destruct (IH _ _ Hd) as [Ht ?]. rewrite (Hs Ht). split; [done|lia].
    + apply rows_delete in Hk. by apply IH in Hk.
    + rewrite register_keeps in Hk. by apply IH in Hk.
    + apply rows_user_delete in Hk as (d & Hd & Hv & _ & Hs & _).
      destruct (IH _ _ Hd) as [Ht ?]. rewrite (Hs Ht). split; [done|lia].
Qed.

(** X20.  In every state reached from the empty one by the operations,
    every entry has a non-empty slug and a count that is not negative;
    so the redirect of a submit request to the entry's detail page never
    fails for want of a slug. *)
Theorem reachable_entries_well_formed st k d :
  reachable st →
  diary_table st !! k = Some d →
  truthy (slug d) = true ∧ 0 ≤ views d ∧ is_Ok (reverse_detail (slug d)) = true.
Proof.
  intros Hreach Hk. destruct (reachable_rows st Hreach k d Hk) as [Ht Hv].
  split_and!; [done|done|]. unfold reverse_detail, truthy in *.
  destruct (slug d) as [v|]; [|done]. by destruct (String.eqb v "").
Qed.

End Rows.

Lemma exec_rows_witness :
  diary_table (exec (H:=sample_external) (OpDetailGet (anonymous ∅) "story") story_state)
    !! 5%nat = Some (set_views 6 story) ∧
  row_step story (set_views 6 story).
Proof.
  split; [vm_compute; reflexivity|].
  exact (exec_rows (H:=sample_external) (OpDetailGet (anonymous ∅) "story")
           story_state 5%nat (set_views 6 story) ltac:(vm_compute; reflexivity)).
Defined.

Lemma reachable_entries_well_formed_witness :
  reachable (H:=sample_external)
    (exec (H:=sample_external) (OpCreate (as_user 1 alice edit_form)) (empty_state 0)) ∧
  diary_table (exec (H:=sample_external) (OpCreate (as_user 1 alice edit_form))
                 (empty_state 0)) !! 0%nat = Some first_entry ∧
  truthy (slug first_entry) = true.
Proof.
  split_and!; [apply reachable_step, reachable_empty | vm_compute; reflexivity |].
  destruct (reachable_entries_well_formed (H:=sample_external)
              (exec (H:=sample_external) (OpCreate (as_user 1 alice edit_form))
                 (empty_state 0)) 0%nat first_entry) as [Ht _];
    [apply reachable_step, reachable_empty | vm_compute; reflexivity | exact Ht].
Defined.

Lemma published_reads_witness :
  get_by_slug (diary_table story_state) "story" = Ok (5%nat, story) ∧
  is_published story = true ∧ author story = Some 1%nat ∧
  user_table story_state !! 1%nat = Some alice ∧
  get_by_slug (diary_table (reads (H:=sample_external) 3 (anonymous ∅) "story"
                              story_state)) "story"
    = Ok (5%nat, set_views (views story + Z.of_nat 3) story).
Proof.
  split_and!; [vm_compute; reflexivity | reflexivity | reflexivity
              | vm_compute; reflexivity |].
  apply (published_reads (H:=sample_external) story_state (anonymous ∅) "story"
           5%nat story 1%nat alice 3);
    [vm_compute; reflexivity | reflexivity | reflexivity | vm_compute; reflexivity].
Defined.
